(** * manage-secret: the installer (src/secret_manager/installer.py)

    A shallow embedding of [installer.py] and the properties of its
    specification.  The installer is a straight-line Python script whose
    whole behaviour is its effect on the outside world: lines printed on the
    console, child processes started, and files created or changed.  The
    embedding therefore has three layers.

    - [Host]: what the script can only observe (the reported OS, the home
      directory, the SHELL variable, which binaries are on the search path,
      how child processes end, which system calls fail, and how far a
      failing copy got).
    - [State]: what the script changes (the file system, the console and the
      list of started processes).
    - [M]: a state-and-exception monad in which the four functions of the
      script are written statement by statement.

    Conventions of the model.  Paths are POSIX strings and a file is
    identified by its path (no symbolic links, no normalisation).  External
    package managers do not touch the modelled files.  A call that opens a
    file, or changes permission bits, either fails without effect or takes
    effect completely; the two library calls made of several system calls
    can fail part-way: [os.makedirs] leaves the directories it made before
    the failing [os.mkdir], [shutil.copy2] leaves the bytes it wrote before
    the failure. *)

From Stdlib Require Import String Ascii ZArith NArith List Lia DecimalString.
From stdpp Require Import base option gmap strings list.

Open Scope string_scope.
Open Scope list_scope.
Open Scope stdpp_scope.

(** ** Python strings *)

Module PyStr.

(** Characters that cannot be typed inside a literal. *)
Definition nl : string := String "010"%char "".
Definition dq : string := String "034"%char "".
Definition sq : string := String "039"%char "".
Definition esc : string := String "027"%char "".

(** [needle in hay] *)
Fixpoint contains (needle hay : string) : bool :=
  String.prefix needle hay
  || match hay with
     | "" => false
     | String _ rest => contains needle rest
     end.

(** The last character, if any. *)
Fixpoint last_char (s : string) : option ascii :=
  match s with
  | "" => None
  | String c "" => Some c
  | String _ rest => last_char rest
  end.

(** [s.endswith("/")] *)
Definition ends_with_sep (s : string) : bool :=
  match last_char s with
  | Some c => Ascii.eqb c "/"
  | None => false
  end.

(** [sep.join(parts)] *)
Definition str_join (sep : string) (parts : list string) : string :=
  String.concat sep parts.

(** [posixpath.join(a, b)] *)
Definition os_path_join (a b : string) : string :=
  if String.prefix "/" b then b
  else if (a =? "") || ends_with_sep a then a +:+ b
  else a +:+ "/" +:+ b.

(** [posixpath.basename(p)]: what follows the last separator. *)
Fixpoint basename_from (cur p : string) : string :=
  match p with
  | "" => cur
  | String c rest =>
      if Ascii.eqb c "/" then basename_from "" rest
      else basename_from (cur +:+ String c "") rest
  end.

Definition os_path_basename (p : string) : string := basename_from "" p.

(** The proper ancestors of a path, outermost first; the root is left out. *)
Fixpoint ancestors_from (cur p : string) : list string :=
  match p with
  | "" => []
  | String c rest =>
      (if Ascii.eqb c "/" && negb (cur =? "") then [cur] else [])
      ++ ancestors_from (cur +:+ String c "") rest
  end.

Definition ancestors (p : string) : list string := ancestors_from "" p.

End PyStr.

Import PyStr.

(** ** Console colours (module-level constants of the script) *)

Definition GREEN : string := esc +:+ "[92m".
Definition YELLOW : string := esc +:+ "[93m".
Definition RED : string := esc +:+ "[91m".
Definition RESET : string := esc +:+ "[0m".

(** ** The outside world *)

(** Permission bits, written as three octal digits. *)
Definition octal (u g o : N) : N := (u * 64 + g * 8 + o)%N.

(** The calls into the operating system that may fail. *)
Inductive syscall :=
  | SysSpawn (argv : list string)
  | SysMakedirs (path : string)
  | SysCopy2 (src dst : string)
  | SysChmod (path : string) (mode : N)
  | SysOpenRead (path : string)
  | SysOpenAppend (path : string).

(** Python exceptions.  [SystemExit] is the only one that is not an
    [Exception]: an [except Exception] clause lets it through. *)
Inductive exn :=
  | CalledProcessError (argv : list string) (returncode : Z)
  | OSError (call : syscall) (strerror : string)
  | SystemExit (code : Z).

Definition is_Exception (e : exn) : bool :=
  match e with
  | SystemExit _ => false
  | _ => true
  end.

Record Host := {
  platform_system : string;             (* platform.system() *)
  home_dir : string;                    (* os.path.expanduser("~") *)
  script_dir : string;                  (* dirname(abspath(__file__)) *)
  env_SHELL : option string;            (* os.environ, key SHELL *)
  which : string -> bool;               (* shutil.which(name) is not None *)
  exit_status : list string -> Z;       (* return code of a child process *)
  os_error : syscall -> option string;  (* the call fails, with this text *)
  copied : syscall -> option nat;       (* bytes a failing copy had written *)
  umask : N;                            (* the process file-mode mask *)
  str_exn : exn -> string               (* str(e) *)
}.

Inductive node :=
  | File (data : string) (mode : N)
  | Dir (mode : N).

Definition node_mode (n : node) : N :=
  match n with
  | File _ m => m
  | Dir m => m
  end.

Definition chmod_node (m : N) (n : node) : node :=
  match n with
  | File d _ => File d m
  | Dir _ => Dir m
  end.

(** What the user sees happen. *)
Inductive event :=
  | Print (line : string)
  | Spawn (argv : list string) (check : bool).

Record State := {
  fs : gmap string node;
  out : list event
}.

Definition emit (e : event) (s : State) : State :=
  {| fs := fs s; out := out s ++ [e] |}.

Definition with_fs (f : gmap string node) (s : State) : State :=
  {| fs := f; out := out s |}.

(** ** The monad of the script *)

Inductive result (A : Type) :=
  | Ok (a : A)
  | Raise (e : exn).
Arguments Ok {A} a.
Arguments Raise {A} e.

Definition M (A : Type) : Type := State -> State * result A.

Definition ret {A} (a : A) : M A := fun s => (s, Ok a).

Definition bind {A B} (m : M A) (k : A -> M B) : M B :=
  fun s =>
    match m s with
    | (s', Ok a) => k a s'
    | (s', Raise e) => (s', Raise e)
    end.

Declare Scope script_scope.
Delimit Scope script_scope with script.
Notation "x ← m ; k" := (bind m (fun x => k))
  (at level 20, m at level 100, k at level 200, only parsing) : script_scope.
Notation "m ;; k" := (bind m (fun _ => k))
  (at level 100, k at level 200, only parsing, right associativity) : script_scope.
Open Scope script_scope.

Definition raise {A} (e : exn) : M A := fun s => (s, Raise e).

(** [try: body except Exception as e: handler] *)
Definition try_except {A} (body : M A) (handler : exn -> M A) : M A :=
  fun s =>
    match body s with
    | (s', Raise e) => if is_Exception e then handler e s' else (s', Raise e)
    | r => r
    end.

(** [for x in xs: body] *)
Fixpoint for_each {A} (xs : list A) (body : A -> M unit) : M unit :=
  match xs with
  | [] => ret tt
  | x :: rest => body x ;; for_each rest body
  end.

(** ** The library calls the script makes *)

Section Script.

Variable h : Host.

(** [print(f"{color}{msg}{RESET}")] *)
Definition log (msg color : string) : M unit :=
  fun s => (emit (Print (color +:+ msg +:+ RESET)) s, Ok tt).

(** [subprocess.run(argv, check=check)]; the returned object is unused. *)
Definition subprocess_run (argv : list string) (check : bool) : M unit :=
  fun s =>
    let s' := emit (Spawn argv check) s in
    match os_error h (SysSpawn argv) with
    | Some msg => (s', Raise (OSError (SysSpawn argv) msg))
    | None =>
        let rc := exit_status h argv in
        if check && negb (rc =? 0)%Z
        then (s', Raise (CalledProcessError argv rc))
        else (s', Ok tt)
    end.

(** [os.path.exists(path)] *)
Definition os_path_exists (path : string) : M bool :=
  fun s => (s, Ok (bool_decide (is_Some (fs s !! path)))).

Definition is_file (f : gmap string node) (path : string) : bool :=
  match f !! path with
  | Some (File _ _) => true
  | _ => false
  end.

Definition is_dir (f : gmap string node) (path : string) : bool :=
  match f !! path with
  | Some (Dir _) => true
  | _ => false
  end.

(** [os.mkdir] for each directory of the list that is missing, outermost
    first, the way the recursion of [os.makedirs] makes them.  The first one
    that fails stops the call with its error text, and those made before it
    stay. *)
Fixpoint make_missing (mode : N) (dirs : list string) (f : gmap string node)
  : gmap string node * option string :=
  match dirs with
  | [] => (f, None)
  | q :: rest =>
      match f !! q with
      | Some _ => make_missing mode rest f
      | None =>
          match os_error h (SysMakedirs q) with
          | Some msg => (f, Some msg)
          | None => make_missing mode rest (<[q := Dir mode]> f)
          end
      end
  end.

(** [os.makedirs(path)]: creates the leaf and every missing ancestor, one
    [os.mkdir] after the other. *)
Definition os_makedirs (path : string) : M unit :=
  fun s =>
    let call := SysMakedirs path in
    if bool_decide (is_Some (fs s !! path))
    then (s, Raise (OSError call "File exists"))
    else if existsb (is_file (fs s)) (ancestors path)
    then (s, Raise (OSError call "Not a directory"))
    else
      let mode := N.ldiff (octal 7 7 7) (umask h) in
      match make_missing mode (ancestors path ++ [path]) (fs s) with
      | (f, Some msg) => (with_fs f s, Raise (OSError call msg))
      | (f, None) => (with_fs f s, Ok tt)
      end.

(** The permission bits of a file just opened for writing: those it had,
    or those of a new file. *)
Definition opened_mode (f : gmap string node) (path : string) : N :=
  match f !! path with
  | Some n => node_mode n
  | None => N.ldiff (octal 6 6 6) (umask h)
  end.

(** What a copy of [src] to [dst'] leaves when it fails: nothing, when it
    failed before [dst'] was opened for writing ([None]) or could not have
    opened it; else the bytes written so far, all of them when only the
    copying of the permission bits failed, under the bits [dst'] was opened
    with. *)
Definition interrupted_copy (f : gmap string node) (src dst' : string)
    (written : option nat) : gmap string node :=
  match written, f !! src with
  | Some k, Some (File data _) =>
      if is_dir f dst' then f
      else <[dst' := File (String.substring 0 k data) (opened_mode f dst')]> f
  | _, _ => f
  end.

(** [shutil.copy2(src, dst)]: bytes, then permission bits; an existing
    directory [dst] receives the file under the source's base name. *)
Definition shutil_copy2 (src dst : string) : M unit :=
  fun s =>
    let call := SysCopy2 src dst in
    let dst' :=
      if is_dir (fs s) dst then os_path_join dst (os_path_basename src) else dst in
    if (src =? dst')%string then (s, Raise (OSError call "same file"))
    else
      match os_error h call with
      | Some msg =>
          (with_fs (interrupted_copy (fs s) src dst' (copied h call)) s,
           Raise (OSError call msg))
      | None =>
          match fs s !! src with
          | None => (s, Raise (OSError call "No such file or directory"))
          | Some (Dir _) => (s, Raise (OSError call "Is a directory"))
          | Some (File data mode) =>
              if is_dir (fs s) dst'
              then (s, Raise (OSError call "Is a directory"))
              else (with_fs (<[dst' := File data mode]> (fs s)) s, Ok tt)
          end
      end.

(** [os.chmod(path, mode)] *)
Definition os_chmod (path : string) (mode : N) : M unit :=
  fun s =>
    let call := SysChmod path mode in
    match os_error h call with
    | Some msg => (s, Raise (OSError call msg))
    | None =>
        match fs s !! path with
        | None => (s, Raise (OSError call "No such file or directory"))
        | Some n => (with_fs (<[path := chmod_node mode n]> (fs s)) s, Ok tt)
        end
    end.

(** [with open(path, "r") as f: f.read()] *)
Definition read_text (path : string) : M string :=
  fun s =>
    let call := SysOpenRead path in
    match os_error h call with
    | Some msg => (s, Raise (OSError call msg))
    | None =>
        match fs s !! path with
        | None => (s, Raise (OSError call "No such file or directory"))
        | Some (Dir _) => (s, Raise (OSError call "Is a directory"))
        | Some (File data _) => (s, Ok data)
        end
    end.

(** [with open(path, "a") as f: f.write(c1); f.write(c2); ...] *)
Definition append_text (path : string) (chunks : list string) : M unit :=
  fun s =>
    let call := SysOpenAppend path in
    let text := String.concat "" chunks in
    match os_error h call with
    | Some msg => (s, Raise (OSError call msg))
    | None =>
        match fs s !! path with
        | Some (Dir _) => (s, Raise (OSError call "Is a directory"))
        | Some (File data mode) =>
            (with_fs (<[path := File (data +:+ text) mode]> (fs s)) s, Ok tt)
        | None =>
            let mode := N.ldiff (octal 6 6 6) (umask h) in
            (with_fs (<[path := File text mode]> (fs s)) s, Ok tt)
        end
    end.

(** ** installer.py *)

Definition install_dependencies : M unit :=
  let system := platform_system h in
  log ("Detected OS: " +:+ system) GREEN ;;
  if (system =? "Darwin")%string then
    if which h "brew" then
      log "Installing dependencies via Homebrew..." YELLOW ;;
      subprocess_run ["brew"; "install"; "--cask"; "keepassxc"] false ;;
      subprocess_run ["brew"; "install"; "jq"; "gnupg"] true
    else
      log "Homebrew not found. Please install keepassxc, jq, and gnupg manually." RED
  else if (system =? "Linux")%string then
    if which h "apt-get" then
      log "Installing dependencies via apt-get (sudo required)..." YELLOW ;;
      subprocess_run ["sudo"; "apt-get"; "update"] true ;;
      subprocess_run
        ["sudo"; "apt-get"; "install"; "-y"; "keepassxc"; "jq"; "gnupg"] true
    else
      log "apt-get not found. Please install keepassxc, jq, and gnupg manually." RED
  else if (system =? "Windows")%string then
    log "Windows detected. Please ensure Chocolatey is installed." YELLOW ;;
    if which h "choco" then
      subprocess_run ["choco"; "install"; "keepassxc"; "jq"; "gnupg"; "-y"] true
    else
      log "Chocolatey not found. Please install keepassxc, jq, and gpg4win manually."
          RED
  else
    log ("Unsupported OS: " +:+ system
         +:+ ". Please manually install keepassxc, jq, and gnupg.") RED.

Definition files_to_copy : list string := ["manage-secrets.sh"; "get-secrets.js"].

(** The body of the loop of [setup_files]. *)
Definition copy_asset (assets_dir target_dir filename : string) : M unit :=
  let src := os_path_join assets_dir filename in
  let dst := os_path_join target_dir filename in
  found ← os_path_exists src;
  if found then
    shutil_copy2 src dst ;;
    os_chmod dst (octal 7 5 5) ;;
    log ("Copied " +:+ filename +:+ " to " +:+ target_dir) GREEN
  else
    log ("Warning: Asset " +:+ filename +:+ " not found in " +:+ assets_dir) RED.

Definition setup_files : M string :=
  let home := home_dir h in
  let target_dir := os_path_join home ".secret-manager" in
  present ← os_path_exists target_dir;
  (if negb present then
     os_makedirs target_dir ;;
     log ("Created directory: " +:+ target_dir) GREEN
   else ret tt) ;;
  let current_dir := script_dir h in
  let assets_dir := os_path_join current_dir "assets" in
  for_each files_to_copy (copy_asset assets_dir target_dir) ;;
  ret target_dir.

(** The value of [rc_file] when the two shell tests are over. *)
Definition select_rc_file : option string :=
  let home := home_dir h in
  let shell := default "" (env_SHELL h) in
  if contains "zsh" shell then Some (os_path_join home ".zshrc")
  else if contains "bash" shell then
    Some (if (platform_system h =? "Darwin")%string
          then os_path_join home ".bash_profile"
          else os_path_join home ".bashrc")
  else None.

(** [not rc_file]: [None] and the empty string are both false values. *)
Definition py_not (o : option string) : bool :=
  match o with
  | None => true
  | Some s => (s =? "")%string
  end.

Definition MARKER : string := "SECRETS_MANAGER_PATH".

Definition config_lines (install_path : string) : list string :=
  [ nl +:+ "# Secret Manager Configuration";
    "export SECRETS_MANAGER_PATH=" +:+ dq +:+ install_path
      +:+ "/manage-secrets.sh" +:+ dq;
    "alias secret-add=" +:+ sq +:+ "$SECRETS_MANAGER_PATH add" +:+ sq;
    "alias secret-ls=" +:+ sq +:+ "$SECRETS_MANAGER_PATH ls" +:+ sq;
    "alias secret-apply=" +:+ sq +:+ "$SECRETS_MANAGER_PATH apply" +:+ sq ].

Definition configure_shell (install_path : string) : M unit :=
  let rc := select_rc_file in
  if py_not rc then
    log "Could not detect shell RC file. Please manually add configuration." RED
  else
    let rc_file := default "" rc in
    log ("Configuring " +:+ rc_file +:+ "...") YELLOW ;;
    let config_lines := config_lines install_path in
    try_except
      (present ← os_path_exists rc_file;
       configured ←
         (if present then
            content ← read_text rc_file;
            if contains MARKER content then
              log "Configuration already exists in RC file. Skipping append." YELLOW ;;
              ret true
            else ret false
          else ret false);
       if configured then ret tt
       else
         append_text rc_file [str_join nl config_lines; nl] ;;
         log ("Successfully configured " +:+ rc_file) GREEN ;;
         log "IMPORTANT: Please restart your terminal or run:" YELLOW ;;
         log ("  source " +:+ rc_file) YELLOW)
      (fun e => log ("Failed to update " +:+ rc_file +:+ ": " +:+ str_exn h e) RED).

(** [sys.exit(code)] *)
Definition sys_exit {A} (code : Z) : M A := raise (SystemExit code).

Definition main : M unit :=
  log "=== Secret Manager Installer ===" GREEN ;;
  try_except
    (install_dependencies ;;
     target_dir ← setup_files;
     configure_shell target_dir ;;
     log (nl +:+ "Installation Complete! ðŸš€") GREEN)
    (fun e =>
       log (nl +:+ "Installation failed: " +:+ str_exn h e) RED ;;
       sys_exit 1).

(** The status with which the interpreter ends after running [main()] as
    the script's last statement: 0 when it returns, the argument of
    [sys.exit], and 1 for an exception nobody caught. *)
Definition exit_code (s : State) : Z :=
  match snd (main s) with
  | Ok _ => 0
  | Raise (SystemExit code) => code
  | Raise _ => 1
  end.

End Script.

(** * Vocabulary of the properties

    Definitions used to state what the script does; none of them is part of
    the script. *)

(** ** States and computations *)

(** The state after more events. *)
Definition emits (evs : list event) (s : State) : State :=
  {| fs := fs s; out := out s ++ evs |}.

(** [m] keeps the property [I] of the file system. *)
Definition preserves {A} (I : gmap string node -> Prop) (m : M A) : Prop :=
  forall s, I (fs s) -> I (fs (fst (m s))).

(** Whatever [m] raises is an [Exception]: a failed command or a failed
    system call, never [SystemExit]. *)
Definition raises_Exception {A} (m : M A) : Prop :=
  forall s s' e, m s = (s', Raise e) -> is_Exception e = true.

(** ** Commands *)

(** The optional install of the primary application on macOS. *)
Definition cask_install : list string :=
  ["brew"; "install"; "--cask"; "keepassxc"].

(** The binary each branch of [install_dependencies] looks for. *)
Definition package_manager (system : string) : option string :=
  if (system =? "Darwin")%string then Some "brew"
  else if (system =? "Linux")%string then Some "apt-get"
  else if (system =? "Windows")%string then Some "choco"
  else None.

(** The invocations the branch for this host makes, in order, each with its
    [check] flag. *)
Definition planned_commands (h : Host) : list (list string * bool) :=
  let system := platform_system h in
  if (system =? "Darwin")%string then
    if which h "brew" then
      [ (["brew"; "install"; "--cask"; "keepassxc"], false);
        (["brew"; "install"; "jq"; "gnupg"], true) ]
    else []
  else if (system =? "Linux")%string then
    if which h "apt-get" then
      [ (["sudo"; "apt-get"; "update"], true);
        (["sudo"; "apt-get"; "install"; "-y"; "keepassxc"; "jq"; "gnupg"], true) ]
    else []
  else if (system =? "Windows")%string then
    if which h "choco" then
      [ (["choco"; "install"; "keepassxc"; "jq"; "gnupg"; "-y"], true) ]
    else []
  else [].

(** How one invocation fails: the process cannot be started, or it is
    checked and ends with a non-zero status. *)
Definition command_failure (h : Host) (c : list string * bool) : option exn :=
  let (argv, check) := c in
  match os_error h (SysSpawn argv) with
  | Some msg => Some (OSError (SysSpawn argv) msg)
  | None =>
      if check && negb (exit_status h argv =? 0)%Z
      then Some (CalledProcessError argv (exit_status h argv))
      else None
  end.

(** The first of the commands to fail, if any. *)
Fixpoint first_failure (h : Host) (cs : list (list string * bool)) : option exn :=
  match cs with
  | [] => None
  | c :: rest =>
      match command_failure h c with
      | Some e => Some e
      | None => first_failure h rest
      end
  end.

(** The installer says something after the optional invocation of [argv]. *)
Definition reported_after (argv : list string) (evs : list event) : Prop :=
  exists before after line,
    evs = before ++ Spawn argv false :: after /\ In (Print line) after.

(** ** Files *)

(** Where [shutil_copy2 src dst] puts the bytes. *)
Definition copy_target (f : gmap string node) (src dst : string) : string :=
  if is_dir f dst then os_path_join dst (os_path_basename src) else dst.


(** The system call is one of the two made for the asset [name]. *)
Definition concerns (assets_dir target_dir name : string) (call : syscall) : Prop :=
  call = SysCopy2 (os_path_join assets_dir name) (os_path_join target_dir name)
  \/ call = SysChmod (os_path_join target_dir name) (octal 7 5 5).

(** The line printed for an asset that is not there. *)
Definition asset_warning (assets_dir name : string) : event :=
  Print (RED +:+ ("Warning: Asset " +:+ name +:+ " not found in " +:+ assets_dir)
         +:+ RESET).

(** ** The shell profile *)

(** The text the two [f.write] calls append. *)
Definition config_text (install_path : string) : string :=
  str_join nl (config_lines install_path) +:+ nl.

(** The five lines of the block, in order. *)
Definition block_lines (install_path : string) : list string :=
  [ "# Secret Manager Configuration";
    "export SECRETS_MANAGER_PATH=" +:+ dq +:+ install_path
      +:+ "/manage-secrets.sh" +:+ dq;
    "alias secret-add=" +:+ sq +:+ "$SECRETS_MANAGER_PATH add" +:+ sq;
    "alias secret-ls=" +:+ sq +:+ "$SECRETS_MANAGER_PATH ls" +:+ sq;
    "alias secret-apply=" +:+ sq +:+ "$SECRETS_MANAGER_PATH apply" +:+ sq ].

(** Each line followed by a newline. *)
Definition newline_terminated (lines : list string) : string :=
  String.concat "" (map (fun line => line +:+ nl) lines).

(** What [configure_shell] leaves at the selected path [rc], from what it
    finds there. *)
Definition rc_after (h : Host) (install_path rc : string) (found : option node)
  : option node :=
  match found with
  | Some (File data mode) =>
      match os_error h (SysOpenRead rc) with
      | Some _ => found
      | None =>
          if contains MARKER data then found
          else
            match os_error h (SysOpenAppend rc) with
            | Some _ => found
            | None => Some (File (data +:+ config_text install_path) mode)
            end
      end
  | Some (Dir _) => found
  | None =>
      match os_error h (SysOpenAppend rc) with
      | Some _ => None
      | None =>
          Some (File (config_text install_path) (N.ldiff (octal 6 6 6) (umask h)))
      end
  end.

(** How many times [needle] starts in [hay]. *)
Fixpoint occurrences (needle hay : string) : nat :=
  (if String.prefix needle hay then 1 else 0)
  + match hay with
    | "" => 0
    | String _ rest => occurrences needle rest
    end.

(** The line printed when no profile is selected. *)
Definition no_shell_warning : event :=
  Print (RED
         +:+ "Could not detect shell RC file. Please manually add configuration."
         +:+ RESET).

(** ** The run *)

(** The two stages of [main] that can fail. *)
Definition stages (h : Host) : M string :=
  install_dependencies h ;; setup_files h.

(** The first and the last line of [main], and the one for a failure. *)
Definition banner : event :=
  Print (GREEN +:+ "=== Secret Manager Installer ===" +:+ RESET).

Definition complete : event :=
  Print (GREEN +:+ (nl +:+ "Installation Complete! ðŸš€") +:+ RESET).

Definition failed (h : Host) (e : exn) : event :=
  Print (RED +:+ (nl +:+ "Installation failed: " +:+ str_exn h e) +:+ RESET).

(** ** Example hosts *)

Module Examples.

Definition repr_list (l : list string) : string :=
  "[" +:+ String.concat ", " (map (fun a => sq +:+ a +:+ sq) l) +:+ "]".

Definition decimal (z : Z) : string :=
  DecimalString.NilZero.string_of_int (Z.to_int z).

(** [str(e)] as CPython prints the exceptions met in the examples (a
    positive return code, an operating-system error text). *)
Definition py_str (e : exn) : string :=
  match e with
  | CalledProcessError argv rc =>
      "Command " +:+ sq +:+ repr_list argv +:+ sq
      +:+ " returned non-zero exit status " +:+ decimal rc +:+ "."
  | OSError _ msg => msg
  | SystemExit code => decimal code
  end.

(** A Debian machine with bash, everything in order. *)
Definition debian : Host := {|
  platform_system := "Linux";
  home_dir := "/home/ada";
  script_dir := "/opt/manage-secret/src/secret_manager";
  env_SHELL := Some "/bin/bash";
  which := fun name => (name =? "apt-get")%string;
  exit_status := fun _ => 0%Z;
  os_error := fun _ => None;
  copied := fun _ => None;
  umask := octal 0 2 2;
  str_exn := py_str
|}.

(** A Mac with zsh and Homebrew on which the cask install fails. *)
Definition mac : Host := {|
  platform_system := "Darwin";
  home_dir := "/Users/ada";
  script_dir := "/opt/manage-secret/src/secret_manager";
  env_SHELL := Some "/bin/zsh";
  which := fun name => (name =? "brew")%string;
  exit_status := fun argv => if bool_decide (argv = cask_install) then 1%Z else 0%Z;
  os_error := fun _ => None;
  copied := fun _ => None;
  umask := octal 0 2 2;
  str_exn := py_str
|}.

(** A machine of the given system with no package manager and no SHELL. *)
Definition bare (system : string) : Host := {|
  platform_system := system;
  home_dir := "/home/ada";
  script_dir := "/opt/manage-secret/src/secret_manager";
  env_SHELL := None;
  which := fun _ => false;
  exit_status := fun _ => 0%Z;
  os_error := fun _ => None;
  copied := fun _ => None;
  umask := octal 0 2 2;
  str_exn := py_str
|}.

(** Debian, but the repository refresh fails. *)
Definition offline : Host := {|
  platform_system := "Linux";
  home_dir := "/home/ada";
  script_dir := "/opt/manage-secret/src/secret_manager";
  env_SHELL := Some "/bin/bash";
  which := fun name => (name =? "apt-get")%string;
  exit_status := fun argv =>
    if bool_decide (argv = ["sudo"; "apt-get"; "update"]) then 100%Z else 0%Z;
  os_error := fun _ => None;
  copied := fun _ => None;
  umask := octal 0 2 2;
  str_exn := py_str
|}.

Definition assets : string := "/opt/manage-secret/src/secret_manager/assets".

(** Both assets shipped, a home directory with a short [.bashrc]. *)
Definition disk : gmap string node :=
  <[assets +:+ "/manage-secrets.sh" := File "#!/bin/sh" (octal 6 4 4)]>
  (<[assets +:+ "/get-secrets.js" := File "// js" (octal 6 4 4)]>
  (<["/home/ada/.bashrc" := File "export EDITOR=vi" (octal 6 4 4)]>
  (<["/home/ada" := Dir (octal 7 5 5)]> ∅))).

Definition fresh : State := {| fs := disk; out := [] |}.

(** Nothing on disk at all. *)
Definition blank : State := {| fs := ∅; out := [] |}.

(** The companion script was left out of the package. *)
Definition incomplete : State :=
  {| fs := delete (assets +:+ "/get-secrets.js") disk; out := [] |}.

End Examples.

(** ** Further vocabulary *)

(** The commands that get started: those of the list up to and including
    the first that fails. *)
Fixpoint attempted (h : Host) (cs : list (list string * bool))
  : list (list string * bool) :=
  match cs with
  | [] => []
  | c :: rest =>
      c :: match command_failure h c with
           | Some _ => []
           | None => attempted h rest
           end
  end.

(** The processes started, as the trace records them. *)
Fixpoint spawned (evs : list event) : list (list string * bool) :=
  match evs with
  | [] => []
  | Spawn argv check :: rest => (argv, check) :: spawned rest
  | Print _ :: rest => spawned rest
  end.

(** [m] adds nothing but printed lines to the trace. *)
Definition only_prints {A} (m : M A) : Prop :=
  forall s, exists lines, out (fst (m s)) = out s ++ map Print lines.

(** The install directory. *)
Definition install_dir (h : Host) : string :=
  os_path_join (home_dir h) ".secret-manager".

(** The paths the turn of the asset [name] may write: its destination, and
    the place below it that receives the copy when the destination is an
    existing directory. *)
Definition asset_paths (h : Host) (name : string) : list string :=
  let src := os_path_join (os_path_join (script_dir h) "assets") name in
  let dst := os_path_join (install_dir h) name in
  [dst; os_path_join dst (os_path_basename src)].

(** The paths [os.makedirs] may create for the install directory. *)
Definition created_dirs (h : Host) : list string :=
  ancestors (install_dir h) ++ [install_dir h].

(** ** Hosts on which something fails *)

Module Faulty.

(** The Debian machine with a home directory in which nothing can be
    created. *)
Definition read_only_home : Host := {|
  platform_system := "Linux";
  home_dir := "/home/ada";
  script_dir := "/opt/manage-secret/src/secret_manager";
  env_SHELL := Some "/bin/bash";
  which := fun name => (name =? "apt-get")%string;
  exit_status := fun _ => 0%Z;
  os_error := fun call =>
    match call with
    | SysMakedirs _ | SysOpenAppend _ => Some "[Errno 13] Permission denied"
    | _ => None
    end;
  copied := fun _ => None;
  umask := octal 0 2 2;
  str_exn := Examples.py_str
|}.

(** The Debian machine with a profile that cannot be read. *)
Definition unreadable_profile : Host := {|
  platform_system := "Linux";
  home_dir := "/home/ada";
  script_dir := "/opt/manage-secret/src/secret_manager";
  env_SHELL := Some "/bin/bash";
  which := fun name => (name =? "apt-get")%string;
  exit_status := fun _ => 0%Z;
  os_error := fun call =>
    match call with
    | SysOpenRead _ => Some "[Errno 13] Permission denied"
    | _ => None
    end;
  copied := fun _ => None;
  umask := octal 0 2 2;
  str_exn := Examples.py_str
|}.

(** The Debian machine with room for four more bytes. *)
Definition full_disk : Host := {|
  platform_system := "Linux";
  home_dir := "/home/ada";
  script_dir := "/opt/manage-secret/src/secret_manager";
  env_SHELL := Some "/bin/bash";
  which := fun name => (name =? "apt-get")%string;
  exit_status := fun _ => 0%Z;
  os_error := fun call =>
    match call with
    | SysCopy2 _ _ => Some "[Errno 28] No space left on device"
    | _ => None
    end;
  copied := fun _ => Some 4;
  umask := octal 0 2 2;
  str_exn := Examples.py_str
|}.

(** The Debian machine on which only the install directory itself cannot
    be made. *)
Definition locked_home : Host := {|
  platform_system := "Linux";
  home_dir := "/home/ada";
  script_dir := "/opt/manage-secret/src/secret_manager";
  env_SHELL := Some "/bin/bash";
  which := fun name => (name =? "apt-get")%string;
  exit_status := fun _ => 0%Z;
  os_error := fun call =>
    match call with
    | SysMakedirs "/home/ada/.secret-manager" =>
        Some "[Errno 13] Permission denied"
    | _ => None
    end;
  copied := fun _ => None;
  umask := octal 0 2 2;
  str_exn := Examples.py_str
|}.

(** The example disk with the directory above the home directory. *)
Definition rooted : State :=
  {| fs := <["/home" := Dir (octal 7 5 5)]> Examples.disk; out := [] |}.

(** The example disk with the install directory already made. *)
Definition prepared : State :=
  {| fs := <["/home/ada/.secret-manager" := Dir (octal 7 5 5)]> Examples.disk;
     out := [] |}.

End Faulty.

(** Both files, or both directories. *)
Definition same_kind (n n' : node) : bool :=
  match n, n' with
  | File _ _, File _ _ => true
  | Dir _, Dir _ => true
  | _, _ => false
  end.

(** The line [configure_shell] prints when the profile cannot be updated. *)
Definition update_failed (h : Host) (rc : string) (e : exn) : event :=
  Print (RED +:+ ("Failed to update " +:+ rc +:+ ": " +:+ str_exn h e) +:+ RESET).

(** The line [configure_shell] prints before it looks at the profile. *)
Definition configuring (rc : string) : event :=
  Print (YELLOW +:+ ("Configuring " +:+ rc +:+ "...") +:+ RESET).

(** A line as [log] prints it: a message between one of the three colour
    codes and the reset code. *)
Definition coloured (line : string) : Prop :=
  exists color msg,
    In color [GREEN; YELLOW; RED] /\ line = color +:+ msg +:+ RESET.

(** An event that is a process started or a line printed by [log]. *)
Definition logged (ev : event) : Prop :=
  match ev with
  | Print line => coloured line
  | Spawn _ _ => True
  end.

(** [m] prints through [log] only. *)
Definition only_logs {A} (m : M A) : Prop :=
  forall s, exists evs, out (fst (m s)) = out s ++ evs /\ Forall logged evs.

(** * Properties of the embedding *)

(** ** Strings and paths *)

Section Strings.

Implicit Types (s t u : string) (c : ascii).

Lemma append_cons c s t : String c s +:+ t = String c (s +:+ t).
Proof. reflexivity. Qed.

Lemma append_empty_l s : "" +:+ s = s.
Proof. reflexivity. Qed.

Lemma append_empty_r s : s +:+ "" = s.
Proof. induction s as [|c s IH]; [done|]. by rewrite append_cons, IH. Qed.

Lemma append_assoc s t u : (s +:+ t) +:+ u = s +:+ t +:+ u.
Proof. induction s as [|c s IH]; [done|]. by rewrite !append_cons, IH. Qed.

Lemma prefix_spec p s : String.prefix p s = true <-> exists r, s = p +:+ r.
Proof.
  revert s; induction p as [|c p IH]; intros s; simpl.
  - split; [intros _; by exists s|by destruct s].
  - destruct s as [|d s]; simpl.
    + split; [done|]. intros [r Hr]. discriminate.
    + destruct (Ascii.ascii_dec c d) as [->|Hne].
      * rewrite IH. split; intros [r Hr]; exists r;
          rewrite append_cons in *; congruence.
      * split; [done|]. intros [r Hr]. rewrite append_cons in Hr. congruence.
Qed.

(** [contains] is the substring relation, character for character. *)
Lemma contains_spec n s :
  contains n s = true <-> exists a b, s = a +:+ n +:+ b.
Proof.
  induction s as [|c s IH]; cbn [contains].
  - rewrite orb_false_r, prefix_spec. split.
    + intros [r Hr]. by exists "", r.
    + intros [a [b Hab]]. destruct a; [by exists b|discriminate].
  - rewrite orb_true_iff, IH, prefix_spec. split.
    + intros [[r Hr]|[a [b Hab]]].
      * by exists "", r.
      * exists (String c a), b. rewrite append_cons. congruence.
    + intros [a [b Hab]]. destruct a as [|d a].
      * left. by exists b.
      * right. exists a, b. rewrite append_cons in Hab. congruence.
Qed.

Lemma contains_app_r n s t : contains n t = true -> contains n (s +:+ t) = true.
Proof.
  rewrite !contains_spec. intros (a & b & ->).
  exists (s +:+ a), b. by rewrite append_assoc.
Qed.

Lemma contains_app_l n s t : contains n s = true -> contains n (s +:+ t) = true.
Proof.
  rewrite !contains_spec. intros (a & b & ->).
  exists a, (b +:+ t). by rewrite !append_assoc.
Qed.

Lemma last_char_cons c s : s <> "" -> last_char (String c s) = last_char s.
Proof. by destruct s. Qed.

Lemma last_char_app s t : t <> "" -> last_char (s +:+ t) = last_char t.
Proof.
  intros Ht. induction s as [|c s IH]; [done|].
  rewrite append_cons, last_char_cons; [done|].
  destruct s; [done|discriminate].
Qed.

Lemma os_path_join_cases a b :
  os_path_join a b = b \/ os_path_join a b = a +:+ b
  \/ os_path_join a b = a +:+ "/" +:+ b.
Proof.
  unfold os_path_join.
  destruct (String.prefix "/" b); [by left|].
  destruct ((a =? "")%string || ends_with_sep a); auto.
Qed.

(** A joined path ends the way its last component does. *)
Lemma os_path_join_last a b :
  b <> "" -> last_char (os_path_join a b) = last_char b.
Proof.
  intros Hb. destruct (os_path_join_cases a b) as [-> | [-> | ->]]; [done|..].
  - by apply last_char_app.
  - rewrite last_char_app; [|by destruct b]. by apply (last_char_app "/").
Qed.

Lemma last_char_None s : last_char s = None -> s = "".
Proof.
  induction s as [|c s IH]; [done|]. destruct s as [|d s]; [done|].
  intros Hs. rewrite last_char_cons in Hs by done. by apply IH in Hs.
Qed.

Lemma os_path_join_nonempty a b : b <> "" -> os_path_join a b <> "".
Proof.
  intros Hb Hj. pose proof (os_path_join_last a b Hb) as Hl.
  rewrite Hj in Hl. symmetry in Hl. by apply last_char_None in Hl.
Qed.

End Strings.

(** ** Running the monad *)

Lemma emit_emits e evs s : emit e (emits evs s) = emits (evs ++ [e]) s.
Proof. unfold emit, emits; simpl. by rewrite app_assoc. Qed.

Lemma emit_as_emits e s : emit e s = emits [e] s.
Proof. reflexivity. Qed.

Lemma emits_nil s : emits [] s = s.
Proof. destruct s. unfold emits; simpl. by rewrite app_nil_r. Qed.

Lemma emits_emits evs evs' s : emits evs' (emits evs s) = emits (evs ++ evs') s.
Proof. unfold emits; simpl. by rewrite app_assoc. Qed.

Lemma log_eq msg color s :
  log msg color s = (emit (Print (color +:+ msg +:+ RESET)) s, Ok tt).
Proof. reflexivity. Qed.

Lemma with_fs_emits f evs s : with_fs f (emits evs s) = emits evs (with_fs f s).
Proof. reflexivity. Qed.

Lemma fs_emits evs s : fs (emits evs s) = fs s.
Proof. reflexivity. Qed.

Lemma fs_with_fs f s : fs (with_fs f s) = f.
Proof. reflexivity. Qed.

(** Brings a state reached by printing and spawning into the form
    [emits evs s]. *)
Ltac trace_nf :=
  rewrite ?log_eq, ?emit_as_emits, ?with_fs_emits, ?emits_emits, ?fs_emits,
    ?fs_with_fs;
  cbn [app].

Lemma bind_Ok {A B} (m : M A) (k : A -> M B) s s' a :
  m s = (s', Ok a) -> bind m k s = k a s'.
Proof. unfold bind. by intros ->. Qed.

Lemma bind_Raise {A B} (m : M A) (k : A -> M B) s s' e :
  m s = (s', Raise e) -> bind m k s = (s', Raise e).
Proof. unfold bind. by intros ->. Qed.

(** ** install_dependencies *)

(** C4: on every platform, when the package manager the branch looks for is
    not on the search path, [install_dependencies] returns normally, starts
    no process and leaves the file system alone; everything it does is print,
    and the last line printed is the (red) guidance to install the packages
    manually. *)
Theorem C4_no_package_manager h s :
  (forall pm, package_manager (platform_system h) = Some pm -> which h pm = false) ->
  exists lines msg,
    install_dependencies h s
    = (emits (map Print (lines ++ [RED +:+ msg +:+ RESET])) s, Ok tt)
    /\ contains "manually" msg = true.
Proof.
  intros Hpm. unfold install_dependencies, package_manager in *.
  destruct (platform_system h =? "Darwin")%string.
  { rewrite (Hpm _ eq_refl). eexists [_], _. split; [|shelve].
    unfold bind. trace_nf. reflexivity. }
  destruct (platform_system h =? "Linux")%string.
  { rewrite (Hpm _ eq_refl). eexists [_], _. split; [|shelve].
    unfold bind. trace_nf. reflexivity. }
  destruct (platform_system h =? "Windows")%string.
  { rewrite (Hpm _ eq_refl). eexists [_; _], _. split; [|shelve].
    unfold bind. trace_nf. reflexivity. }
  eexists [_], _. split.
  { unfold bind. trace_nf. reflexivity. }
  rewrite <- append_assoc. by apply contains_app_r.
  Unshelve. all: reflexivity.
Qed.

Lemma C4_no_package_manager_witness :
  exists lines msg,
    install_dependencies (Examples.bare "Darwin") Examples.fresh
    = (emits (map Print (lines ++ [RED +:+ msg +:+ RESET])) Examples.fresh, Ok tt)
    /\ contains "manually" msg = true.
Proof.
  apply (C4_no_package_manager (Examples.bare "Darwin") Examples.fresh).
  intros pm Hpm. reflexivity.
Defined.

(** An invocation without [check=True] that could be started always
    returns, and adds nothing but itself to what the user sees. *)
Lemma subprocess_run_unchecked h argv s :
  os_error h (SysSpawn argv) = None ->
  subprocess_run h argv false s = (emit (Spawn argv false) s, Ok tt).
Proof. unfold subprocess_run. by intros ->. Qed.

(** C3 (as stated, refuted): on a Mac with Homebrew whose cask install
    exits with status 1, the optional invocation is made and fails, yet no
    line of any severity is printed after it. *)
Lemma C3_failed_cask_not_reported :
  let evs := out (fst (install_dependencies Examples.mac Examples.blank)) in
  exit_status Examples.mac cask_install = 1%Z
  /\ In (Spawn cask_install false) evs
  /\ ~ reported_after cask_install evs.
Proof.
  split; [reflexivity|]. split; [vm_compute; tauto|].
  intros (before & after & line & Hevs & Hin).
  vm_compute in Hevs.
  destruct before as [|e1 [|e2 [|e3 [|e4 [|e5 before]]]]]; simplify_eq/=.
  destruct Hin as [Hin|[]]. discriminate Hin.
Qed.

(** C3 (amended): a command run without [check=True] whose process exits
    non-zero is not reported at all: [subprocess_run] returns normally and
    prints nothing, whatever the exit status.  On macOS with Homebrew the
    cask install is followed directly by the required install of jq and
    gnupg; the state in which that one starts, and therefore everything the
    installer prints, does not depend on how the cask install ended. *)
Theorem C3_optional_failure_is_silent h s :
  platform_system h = "Darwin" ->
  which h "brew" = true ->
  os_error h (SysSpawn cask_install) = None ->
  (forall argv s0,
      os_error h (SysSpawn argv) = None ->
      subprocess_run h argv false s0 = (emit (Spawn argv false) s0, Ok tt))
  /\ install_dependencies h s
     = subprocess_run h ["brew"; "install"; "jq"; "gnupg"] true
         (emits [Print (GREEN +:+ "Detected OS: Darwin" +:+ RESET);
                 Print (YELLOW +:+ "Installing dependencies via Homebrew..."
                        +:+ RESET);
                 Spawn cask_install false] s).
Proof.
  intros Hsys Hbrew Hspawn.
  split; [intros argv s0; by apply subprocess_run_unchecked|].
  unfold install_dependencies. rewrite Hsys, Hbrew. cbn [String.eqb Ascii.eqb Bool.eqb].
  unfold bind at 1. rewrite log_eq.
  unfold bind at 1. rewrite log_eq.
  unfold bind at 1. fold cask_install.
  rewrite subprocess_run_unchecked by done. trace_nf. reflexivity.
Qed.

Lemma C3_optional_failure_is_silent_witness :
  (forall argv s0,
      os_error Examples.mac (SysSpawn argv) = None ->
      subprocess_run Examples.mac argv false s0
      = (emit (Spawn argv false) s0, Ok tt))
  /\ install_dependencies Examples.mac Examples.blank
     = subprocess_run Examples.mac ["brew"; "install"; "jq"; "gnupg"] true
         (emits [Print (GREEN +:+ "Detected OS: Darwin" +:+ RESET);
                 Print (YELLOW +:+ "Installing dependencies via Homebrew..."
                        +:+ RESET);
                 Spawn cask_install false] Examples.blank).
Proof.
  apply (C3_optional_failure_is_silent Examples.mac Examples.blank);
    reflexivity.
Defined.

(** ** configure_shell *)

Lemma select_rc_file_nonempty h rc : select_rc_file h = Some rc -> rc <> "".
Proof.
  unfold select_rc_file. intros Hrc.
  repeat match type of Hrc with
         | (if ?b then _ else _) = _ => destruct b
         | Some (if ?b then _ else _) = _ => destruct b
         end; simplify_eq; by apply os_path_join_nonempty.
Qed.

Lemma py_not_selected h rc : select_rc_file h = Some rc -> py_not (Some rc) = false.
Proof.
  intros Hrc%select_rc_file_nonempty. by apply String.eqb_neq.
Qed.

Lemma exists_Some (f : gmap string node) p n :
  f !! p = Some n -> bool_decide (is_Some (f !! p)) = true.
Proof. intros ->. by apply bool_decide_eq_true_2. Qed.

Lemma exists_None (f : gmap string node) p :
  f !! p = None -> bool_decide (is_Some (f !! p)) = false.
Proof. intros ->. apply bool_decide_eq_false_2. by intros [? ?]. Qed.

Section ConfigureShell.

Variables (h : Host) (install_path : string) (s : State) (rc : string).
Hypothesis Hrc : select_rc_file h = Some rc.

Let configuring : event :=
  Print (YELLOW +:+ ("Configuring " +:+ rc +:+ "...") +:+ RESET).

Let success : list event :=
  [Print (GREEN +:+ ("Successfully configured " +:+ rc) +:+ RESET);
   Print (YELLOW +:+ "IMPORTANT: Please restart your terminal or run:" +:+ RESET);
   Print (YELLOW +:+ ("  source " +:+ rc) +:+ RESET)].

Ltac run :=
  unfold configure_shell; rewrite Hrc, (py_not_selected _ _ Hrc);
  cbn [default from_option id];
  unfold try_except, bind, os_path_exists, read_text, append_text, ret.

(** Marker found: nothing is written. *)
Lemma configure_shell_skip data mode :
  fs s !! rc = Some (File data mode) ->
  os_error h (SysOpenRead rc) = None ->
  contains MARKER data = true ->
  configure_shell h install_path s
  = (emits [configuring;
            Print (YELLOW
                   +:+ "Configuration already exists in RC file. Skipping append."
                   +:+ RESET)] s, Ok tt).
Proof.
  intros Hfile Hread Hmark. run. trace_nf.
  rewrite (exists_Some _ _ _ Hfile), Hread. trace_nf.
  rewrite Hfile, Hmark. trace_nf. reflexivity.
Qed.

(** No marker in an existing file: the text goes to its end. *)
Lemma configure_shell_append data mode :
  fs s !! rc = Some (File data mode) ->
  os_error h (SysOpenRead rc) = None ->
  contains MARKER data = false ->
  os_error h (SysOpenAppend rc) = None ->
  configure_shell h install_path s
  = (emits (configuring :: success)
       (with_fs (<[rc := File (data +:+ config_text install_path) mode]> (fs s)) s),
     Ok tt).
Proof.
  intros Hfile Hread Hmark Happ. run. trace_nf.
  rewrite (exists_Some _ _ _ Hfile), Hread. trace_nf.
  rewrite Hfile, Hmark, Happ. trace_nf. rewrite Hfile. trace_nf.
  reflexivity.
Qed.

(** No file yet: it is created holding the text. *)
Lemma configure_shell_create :
  fs s !! rc = None ->
  os_error h (SysOpenAppend rc) = None ->
  configure_shell h install_path s
  = (emits (configuring :: success)
       (with_fs (<[rc := File (config_text install_path)
                           (N.ldiff (octal 6 6 6) (umask h))]> (fs s)) s),
     Ok tt).
Proof.
  intros Hfile Happ. run. trace_nf.
  rewrite (exists_None _ _ Hfile), Happ. trace_nf. rewrite Hfile. trace_nf.
  reflexivity.
Qed.

(** Every way through [configure_shell]: it returns, it only prints, and
    the file system is either untouched or differs at [rc] alone, by the
    appended text. *)
Lemma configure_shell_effect :
  exists lines f,
    configure_shell h install_path s = (emits (map Print lines) (with_fs f s), Ok tt)
    /\ (f = fs s
        \/ (exists data mode,
              fs s !! rc = Some (File data mode)
              /\ contains MARKER data = false
              /\ f = <[rc := File (data +:+ config_text install_path) mode]> (fs s))
        \/ (fs s !! rc = None
            /\ f = <[rc := File (config_text install_path)
                             (N.ldiff (octal 6 6 6) (umask h))]> (fs s))).
Proof.
  destruct (fs s !! rc) as [[data mode|mode]|] eqn:Hfile.
  - destruct (os_error h (SysOpenRead rc)) as [msg|] eqn:Hread.
    { eexists [_; _], _. split; [|by left].
      run. trace_nf. rewrite (exists_Some _ _ _ Hfile), Hread.
      cbn [is_Exception]. trace_nf. reflexivity. }
    destruct (contains MARKER data) eqn:Hmark.
    { eexists [_; _], _. split; [|by left].
      by rewrite (configure_shell_skip _ _ Hfile Hread Hmark). }
    destruct (os_error h (SysOpenAppend rc)) as [msg|] eqn:Happ.
    { eexists [_; _], _. split; [|by left].
      run. trace_nf. rewrite (exists_Some _ _ _ Hfile), Hread. trace_nf.
      rewrite Hfile, Hmark, Happ. cbn [is_Exception]. trace_nf. reflexivity. }
    eexists [_; _; _; _], _. split; [|right; left; eauto].
    by rewrite (configure_shell_append _ _ Hfile Hread Hmark Happ).
  - destruct (os_error h (SysOpenRead rc)) as [msg|] eqn:Hread;
      (eexists [_; _], _; split; [|by left]);
      run; trace_nf; rewrite (exists_Some _ _ _ Hfile), Hread; trace_nf;
      rewrite ?Hfile; cbn [is_Exception]; trace_nf; reflexivity.
  - destruct (os_error h (SysOpenAppend rc)) as [msg|] eqn:Happ.
    { eexists [_; _], _. split; [|by left].
      run. trace_nf. rewrite (exists_None _ _ Hfile), Happ.
      cbn [is_Exception]. trace_nf. reflexivity. }
    eexists [_; _; _; _], _. split; [|right; right; eauto].
    by rewrite (configure_shell_create Hfile Happ).
Qed.

(** The node at [rc] after the call, in every case. *)
Lemma configure_shell_rc :
  fs (fst (configure_shell h install_path s)) !! rc
  = rc_after h install_path rc (fs s !! rc).
Proof.
  unfold rc_after.
  destruct (fs s !! rc) as [[data mode|mode]|] eqn:Hfile.
  - destruct (os_error h (SysOpenRead rc)) as [msg|] eqn:Hread.
    { run. trace_nf. rewrite (exists_Some _ _ _ Hfile), Hread.
      cbn [is_Exception]. trace_nf. cbn [fst]. by trace_nf. }
    destruct (contains MARKER data) eqn:Hmark.
    { by rewrite (configure_shell_skip _ _ Hfile Hread Hmark). }
    destruct (os_error h (SysOpenAppend rc)) as [msg|] eqn:Happ.
    { run. trace_nf. rewrite (exists_Some _ _ _ Hfile), Hread. trace_nf.
      rewrite Hfile, Hmark, Happ. cbn [is_Exception]. trace_nf.
      cbn [fst]. by trace_nf. }
    rewrite (configure_shell_append _ _ Hfile Hread Hmark Happ).
    cbn [fst]. trace_nf. by rewrite lookup_insert_eq.
  - run. trace_nf. rewrite (exists_Some _ _ _ Hfile).
    destruct (os_error h (SysOpenRead rc)) as [msg|] eqn:Hread; trace_nf;
      rewrite ?Hfile; cbn [is_Exception]; trace_nf; cbn [fst]; by trace_nf.
  - destruct (os_error h (SysOpenAppend rc)) as [msg|] eqn:Happ.
    { run. trace_nf. rewrite (exists_None _ _ Hfile), Happ.
      cbn [is_Exception]. trace_nf. cbn [fst]. by trace_nf. }
    rewrite (configure_shell_create Hfile Happ).
    cbn [fst]. trace_nf. by rewrite lookup_insert_eq.
Qed.

End ConfigureShell.

(** No shell recognised: one red line, nothing else. *)
Lemma configure_shell_unclassified h install_path s :
  select_rc_file h = None ->
  configure_shell h install_path s
  = (emit (Print (RED
                  +:+ "Could not detect shell RC file. Please manually add configuration."
                  +:+ RESET)) s, Ok tt).
Proof. unfold configure_shell. by intros ->. Qed.

(** [configure_shell] never raises, never starts a process, and touches at
    most the selected file. *)
Lemma configure_shell_frame h install_path s :
  exists lines f,
    configure_shell h install_path s = (emits (map Print lines) (with_fs f s), Ok tt)
    /\ forall p, select_rc_file h <> Some p -> f !! p = fs s !! p.
Proof.
  destruct (select_rc_file h) as [rc|] eqn:Hrc.
  - destruct (configure_shell_effect h install_path s rc Hrc)
      as (lines & f & Hrun & Hf).
    exists lines, f. split; [done|]. intros p Hp.
    assert (rc <> p) by congruence.
    destruct Hf as [->|[(data & mode & _ & _ & ->)|[_ ->]]];
      by rewrite ?lookup_insert_ne.
  - eexists [_], (fs s). split; [|done].
    by rewrite configure_shell_unclassified.
Qed.

Lemma configure_shell_returns h install_path s :
  exists s', configure_shell h install_path s = (s', Ok tt).
Proof.
  destruct (configure_shell_frame h install_path s) as (lines & f & -> & _).
  eauto.
Qed.

(** ** main *)

Lemma main_completes h s s1 target_dir :
  stages h (emit banner s) = (s1, Ok target_dir) ->
  main h s = (emit complete (fst (configure_shell h target_dir s1)), Ok tt).
Proof.
  unfold stages, main. intros Hst.
  unfold bind at 1. rewrite log_eq. fold banner.
  unfold try_except.
  unfold bind in Hst. unfold bind at 1.
  destruct (install_dependencies h (emit banner s)) as [s' [[]|e]]; [|done].
  unfold bind at 1. rewrite Hst.
  destruct (configure_shell_returns h target_dir s1) as [s2 Hs2].
  unfold bind at 1. rewrite Hs2. by rewrite log_eq.
Qed.

Lemma main_fails h s s1 e :
  stages h (emit banner s) = (s1, Raise e) ->
  is_Exception e = true ->
  main h s = (emit (failed h e) s1, Raise (SystemExit 1)).
Proof.
  unfold stages, main. intros Hst He.
  unfold bind at 1. rewrite log_eq. fold banner.
  unfold try_except.
  unfold bind in Hst. unfold bind at 1.
  destruct (install_dependencies h (emit banner s)) as [s' [[]|e']].
  - unfold bind at 1. rewrite Hst, He.
    unfold bind, sys_exit, raise. by rewrite log_eq.
  - simplify_eq. rewrite He.
    unfold bind, sys_exit, raise. by rewrite log_eq.
Qed.

(** ** The shell profile *)

(** C5: the SHELL value is classified by exact (case-sensitive) substring
    tests, "zsh" first: a value containing "zsh" selects [.zshrc] in the home
    directory, whatever else it contains; a value containing "bash" but not
    "zsh" selects [.bash_profile] when the system is Darwin and [.bashrc]
    otherwise; for any other value no file is selected, [configure_shell]
    prints one red line and changes nothing. *)
Theorem C5_shell_classification h :
  let shell := default "" (env_SHELL h) in
  let home := home_dir h in
  (contains "zsh" shell = true ->
   select_rc_file h = Some (os_path_join home ".zshrc"))
  /\ (contains "zsh" shell = false -> contains "bash" shell = true ->
      select_rc_file h
      = Some (os_path_join home
                (if (platform_system h =? "Darwin")%string
                 then ".bash_profile" else ".bashrc")))
  /\ (contains "zsh" shell = false -> contains "bash" shell = false ->
      select_rc_file h = None
      /\ forall install_path s,
          configure_shell h install_path s
          = (emit (Print (RED
                          +:+ "Could not detect shell RC file. Please manually add configuration."
                          +:+ RESET)) s, Ok tt)).
Proof.
  cbn zeta. split; [|split].
  - unfold select_rc_file. by intros ->.
  - unfold select_rc_file. intros -> ->.
    by destruct (platform_system h =? "Darwin")%string.
  - intros Hz Hb.
    assert (select_rc_file h = None) as Hnone.
    { unfold select_rc_file. by rewrite Hz, Hb. }
    split; [done|]. intros install_path s.
    by apply configure_shell_unclassified.
Qed.

Lemma C5_shell_classification_witness :
  select_rc_file Examples.mac = Some "/Users/ada/.zshrc"
  /\ select_rc_file Examples.debian = Some "/home/ada/.bashrc"
  /\ select_rc_file (Examples.bare "Darwin") = None.
Proof.
  split; [|split].
  - apply (proj1 (C5_shell_classification Examples.mac)). reflexivity.
  - apply (proj1 (proj2 (C5_shell_classification Examples.debian)));
      reflexivity.
  - apply (proj2 (proj2 (C5_shell_classification (Examples.bare "Darwin"))));
      reflexivity.
Defined.

(** The tests compare characters exactly: an upper-case shell name is not
    recognised, and on a Mac bash gets the login profile. *)
Example classification_is_case_sensitive :
  contains "zsh" "/bin/ZSH" = false
  /\ contains "bash" "/usr/local/bin/Bash" = false
  /\ contains "zsh" "/usr/bin/zsh-bash" = true.
Proof. by vm_compute. Qed.

(** ** The configuration block *)

Lemma config_text_block install_path :
  config_text install_path = nl +:+ newline_terminated (block_lines install_path).
Proof.
  unfold config_text, str_join, config_lines, newline_terminated, block_lines.
  cbn [String.concat map].
  rewrite !append_assoc, !append_empty_l.
  repeat (rewrite ?append_cons, ?append_empty_l, ?append_assoc; f_equal).
Qed.

Lemma config_text_has_marker install_path :
  contains MARKER (config_text install_path) = true.
Proof.
  apply contains_spec.
  exists (nl +:+ "# Secret Manager Configuration" +:+ nl +:+ "export "),
    ("=" +:+ dq +:+ install_path +:+ "/manage-secrets.sh" +:+ dq +:+ nl
     +:+ newline_terminated (skipn 2 (block_lines install_path))).
  rewrite config_text_block.
  unfold newline_terminated, block_lines. cbn [String.concat map skipn].
  repeat (rewrite ?append_cons, ?append_empty_l, ?append_assoc; f_equal).
Qed.

(** C6: when the selected file is absent, or present and readable without
    the marker, and it can be opened for appending, [configure_shell] leaves
    it holding its old content (none for a new file) followed by an empty
    line and the five lines of the block, every one of them ended by a
    newline: the header comment, the export of SECRETS_MANAGER_PATH bound to
    the install path followed by "/manage-secrets.sh", and the three
    aliases.  The empty line is the newline that opens the text written: in
    a new file, or after content that ends in a newline, it stands as a
    blank line before the header.  A new file gets the default permission
    bits. *)
Theorem C6_appended_block h install_path s rc old mode :
  select_rc_file h = Some rc ->
  (fs s !! rc = Some (File old mode)
   /\ os_error h (SysOpenRead rc) = None
   /\ contains MARKER old = false)
  \/ (fs s !! rc = None
      /\ old = "" /\ mode = N.ldiff (octal 6 6 6) (umask h)) ->
  os_error h (SysOpenAppend rc) = None ->
  snd (configure_shell h install_path s) = Ok tt
  /\ fs (fst (configure_shell h install_path s))
     = <[rc := File (old +:+ nl
                     +:+ newline_terminated
                           [ "# Secret Manager Configuration";
                             "export SECRETS_MANAGER_PATH=" +:+ dq
                               +:+ install_path +:+ "/manage-secrets.sh" +:+ dq;
                             "alias secret-add=" +:+ sq
                               +:+ "$SECRETS_MANAGER_PATH add" +:+ sq;
                             "alias secret-ls=" +:+ sq
                               +:+ "$SECRETS_MANAGER_PATH ls" +:+ sq;
                             "alias secret-apply=" +:+ sq
                               +:+ "$SECRETS_MANAGER_PATH apply" +:+ sq ])
                  mode]> (fs s).
Proof.
  intros Hrc Hfile Happ. fold (block_lines install_path).
  rewrite <- config_text_block.
  destruct Hfile as [(Hfile & Hread & Hmark)|(Hfile & -> & ->)].
  - by rewrite (configure_shell_append h install_path s rc Hrc old mode).
  - by rewrite (configure_shell_create h install_path s rc Hrc).
Qed.

Lemma C6_appended_block_witness :
  snd (configure_shell Examples.debian "/home/ada/.secret-manager" Examples.fresh)
  = Ok tt
  /\ fs (fst (configure_shell Examples.debian "/home/ada/.secret-manager"
                Examples.fresh))
     = <["/home/ada/.bashrc" :=
           File ("export EDITOR=vi" +:+ nl
                 +:+ newline_terminated
                       [ "# Secret Manager Configuration";
                         "export SECRETS_MANAGER_PATH=" +:+ dq
                           +:+ "/home/ada/.secret-manager"
                           +:+ "/manage-secrets.sh" +:+ dq;
                         "alias secret-add=" +:+ sq
                           +:+ "$SECRETS_MANAGER_PATH add" +:+ sq;
                         "alias secret-ls=" +:+ sq
                           +:+ "$SECRETS_MANAGER_PATH ls" +:+ sq;
                         "alias secret-apply=" +:+ sq
                           +:+ "$SECRETS_MANAGER_PATH apply" +:+ sq ])
                (octal 6 4 4)]> (fs Examples.fresh).
Proof.
  apply (C6_appended_block Examples.debian "/home/ada/.secret-manager"
           Examples.fresh "/home/ada/.bashrc" "export EDITOR=vi" (octal 6 4 4)).
  - reflexivity.
  - left. split; [|split]; reflexivity.
  - reflexivity.
Defined.

(** C9: [configure_shell] only ever appends to the selected file.  A file
    that is there before keeps its content as a prefix of what it holds
    after, byte for byte, and its permission bits; what is added is nothing
    or, when the marker was absent, the block.  Every other path holds after
    the call what it held before. *)
Theorem C9_append_only h install_path s rc :
  select_rc_file h = Some rc ->
  let s' := fst (configure_shell h install_path s) in
  (forall data mode,
      fs s !! rc = Some (File data mode) ->
      exists suffix,
        fs s' !! rc = Some (File (data +:+ suffix) mode)
        /\ (suffix = ""
            \/ (contains MARKER data = false
                /\ suffix = config_text install_path)))
  /\ (forall p, p <> rc -> fs s' !! p = fs s !! p).
Proof.
  intros Hrc s'. subst s'.
  destruct (configure_shell_effect h install_path s rc Hrc)
    as (lines & f & -> & Hf).
  cbn [fst]. rewrite fs_emits, fs_with_fs. split.
  - intros data mode Hfile.
    destruct Hf as [->|[(data' & mode' & Hfile' & Hmark & ->)|[Hnone _]]].
    + exists "". rewrite append_empty_r. auto.
    + simplify_eq. exists (config_text install_path).
      rewrite lookup_insert_eq. auto.
    + congruence.
  - intros p Hp.
    destruct Hf as [->|[(data' & mode' & _ & _ & ->)|[_ ->]]];
      by rewrite ?lookup_insert_ne.
Qed.

Lemma C9_append_only_witness :
  let s' := fst (configure_shell Examples.debian "/home/ada/.secret-manager"
                   Examples.fresh) in
  (forall data mode,
      fs Examples.fresh !! "/home/ada/.bashrc" = Some (File data mode) ->
      exists suffix,
        fs s' !! "/home/ada/.bashrc" = Some (File (data +:+ suffix) mode)
        /\ (suffix = ""
            \/ (contains MARKER data = false
                /\ suffix = config_text "/home/ada/.secret-manager")))
  /\ (forall p, p <> "/home/ada/.bashrc" -> fs s' !! p = fs Examples.fresh !! p).
Proof.
  apply (C9_append_only Examples.debian "/home/ada/.secret-manager"
           Examples.fresh "/home/ada/.bashrc").
  reflexivity.
Defined.

(** Once the marker is there, [rc_after] changes nothing; and what it
    writes carries the marker. *)
Lemma rc_after_idempotent h install_path rc found :
  rc_after h install_path rc (rc_after h install_path rc found)
  = rc_after h install_path rc found.
Proof.
  pose proof (config_text_has_marker install_path) as Htext.
  unfold rc_after.
  destruct found as [[data mode|mode]|]; [|done|].
  - destruct (os_error h (SysOpenRead rc)); [done|].
    destruct (contains MARKER data) eqn:Hmark; [by rewrite Hmark|].
    destruct (os_error h (SysOpenAppend rc)); [by rewrite Hmark|].
    by rewrite (contains_app_r _ data _ Htext).
  - destruct (os_error h (SysOpenAppend rc)); [done|].
    destruct (os_error h (SysOpenRead rc)); [done|]. by rewrite Htext.
Qed.

(** Running [configure_shell] a second time never changes the file system. *)
Lemma configure_shell_twice h install_path s :
  let s1 := fst (configure_shell h install_path s) in
  fs (fst (configure_shell h install_path s1)) = fs s1.
Proof.
  cbn zeta. destruct (select_rc_file h) as [rc|] eqn:Hrc.
  2: { by rewrite !configure_shell_unclassified. }
  apply map_eq. intros p. destruct (decide (p = rc)) as [->|Hp].
  - by rewrite !configure_shell_rc, rc_after_idempotent.
  - destruct (configure_shell_frame h install_path
                (fst (configure_shell h install_path s)))
      as (lines & f & -> & Hf).
    cbn [fst]. trace_nf. apply Hf. congruence.
Qed.

(** ** What a computation keeps *)

Section Preserves.

Context (I : gmap string node -> Prop).

Lemma preserves_ret {A} (a : A) : preserves I (ret a).
Proof. by intros s. Qed.

Lemma preserves_log msg color : preserves I (log msg color).
Proof. by intros s. Qed.

Lemma preserves_bind {A B} (m : M A) (k : A -> M B) :
  preserves I m -> (forall a, preserves I (k a)) -> preserves I (bind m k).
Proof.
  intros Hm Hk s Hs. unfold bind. specialize (Hm s Hs).
  destruct (m s) as [s' [a|e]]; [|done]. by apply Hk.
Qed.

Lemma preserves_for_each {A} (xs : list A) (body : A -> M unit) :
  (forall x, In x xs -> preserves I (body x)) -> preserves I (for_each xs body).
Proof.
  induction xs as [|x xs IH]; intros Hbody; cbn [for_each].
  - apply preserves_ret.
  - apply preserves_bind; [apply Hbody; by left|].
    intros _. apply IH. intros y Hy. apply Hbody. by right.
Qed.

Lemma preserves_exists path : preserves I (os_path_exists path).
Proof. by intros s. Qed.

Lemma preserves_subprocess_run h argv check :
  preserves I (subprocess_run h argv check).
Proof.
  intros s Hs. unfold subprocess_run.
  by repeat case_match.
Qed.

Lemma preserves_install_dependencies h : preserves I (install_dependencies h).
Proof.
  unfold install_dependencies.
  repeat first
    [ apply preserves_bind; [|intros _]
    | apply preserves_log
    | apply preserves_subprocess_run
    | case_match ].
Qed.

End Preserves.

Lemma install_dependencies_fs h s : fs (fst (install_dependencies h s)) = fs s.
Proof.
  symmetry. by apply (preserves_install_dependencies (eq (fs s)) h s).
Qed.

(** ** Paths written by setup_files *)

Lemma basename_from_last cur p c :
  last_char p = Some c -> c <> "/"%char ->
  last_char (basename_from cur p) = Some c.
Proof.
  revert cur. induction p as [|a rest IH]; intros cur Hlast Hc; [done|].
  cbn [basename_from]. destruct rest as [|b rest].
  - cbn in Hlast. simplify_eq.
    rewrite (proj2 (Ascii.eqb_neq c "/") Hc). cbn [basename_from].
    by rewrite last_char_app.
  - rewrite last_char_cons in Hlast by done.
    destruct (Ascii.eqb a "/"); by apply IH.
Qed.

Lemma os_path_basename_last p c :
  last_char p = Some c -> c <> "/"%char ->
  last_char (os_path_basename p) = Some c.
Proof. apply basename_from_last. Qed.

(** Joining a name onto two directories gives two paths with the ending of
    the name; so does copying one into the other, directory or not. *)
Lemma copy_target_last f a t name c :
  last_char name = Some c -> c <> "/"%char ->
  last_char (copy_target f (os_path_join a name) (os_path_join t name)) = Some c.
Proof.
  intros Hname Hc.
  assert (name <> "") as Hne by (by intros ->).
  unfold copy_target. destruct (is_dir f (os_path_join t name)).
  - rewrite os_path_join_last.
    + apply os_path_basename_last; [|done]. by rewrite os_path_join_last.
    + intros Hb. pose proof (os_path_basename_last (os_path_join a name) c) as Hl.
      rewrite Hb, os_path_join_last in Hl by done. by specialize (Hl Hname Hc).
  - by rewrite os_path_join_last.
Qed.

(** The two asset names end in "h" and in "s". *)
Lemma files_to_copy_last name :
  In name files_to_copy ->
  last_char name = Some "h"%char \/ last_char name = Some "s"%char.
Proof. intros [<-|[<-|[]]]; auto. Qed.

(** The three profile names end in "c" or in "e". *)
Lemma select_rc_file_last h rc :
  select_rc_file h = Some rc ->
  last_char rc = Some "c"%char \/ last_char rc = Some "e"%char.
Proof.
  unfold select_rc_file. intros Hrc.
  repeat match type of Hrc with
         | (if ?b then _ else _) = _ => destruct b
         | Some (if ?b then _ else _) = _ => destruct b
         end; simplify_eq; rewrite os_path_join_last by done; auto.
Qed.

(** ** What the library calls keep *)

Section Kept.

Variables (h : Host) (p : string) (o : option node).

(** What is found at [p], a node or nothing, stays what it is. *)
Let kept (f : gmap string node) : Prop := f !! p = o.

Lemma make_missing_lookup mode qs (f : gmap string node) :
  is_Some (f !! p) \/ ~ In p qs ->
  fst (make_missing h mode qs f) !! p = f !! p.
Proof.
  revert f. induction qs as [|q qs IH]; intros f Hp; [done|].
  cbn [make_missing]. destruct (f !! q) eqn:Hq.
  - apply IH. destruct Hp as [Hp|Hp]; [by left|right].
    intros Hin. apply Hp. by right.
  - destruct (os_error h (SysMakedirs q)); [done|].
    assert (q <> p) as Hne.
    { intros ->. destruct Hp as [Hp|Hp]; [|apply Hp; by left].
      rewrite Hq in Hp. by destruct Hp. }
    rewrite IH; rewrite lookup_insert_ne by done; [done|].
    destruct Hp as [Hp|Hp]; [by left|right]. intros Hin. apply Hp. by right.
Qed.

(** Whether it returns or fails part-way, [os.makedirs] touches nothing but
    missing directories on the way to its leaf. *)
Lemma os_makedirs_kept path :
  is_Some o \/ ~ In p (ancestors path ++ [path]) ->
  preserves kept (os_makedirs h path).
Proof.
  intros Hp s Hs. unfold os_makedirs.
  destruct (bool_decide _); [done|]. destruct (existsb _ _); [done|].
  pose proof (make_missing_lookup (N.ldiff (octal 7 7 7) (umask h))
                (ancestors path ++ [path]) (fs s)) as Hl.
  destruct (make_missing _ _ _ _) as [f [msg|]];
    cbn [fst] in *; rewrite fs_with_fs; unfold kept in *;
    (rewrite Hl; [done|]);
    (destruct Hp as [Hp|Hp]; [left; by rewrite Hs|by right]).
Qed.

(** A copy that fails part-way has written nowhere but to its target. *)
Lemma interrupted_copy_lookup (f : gmap string node) src dst' written :
  p <> dst' -> interrupted_copy h f src dst' written !! p = f !! p.
Proof.
  intros Hp. unfold interrupted_copy. repeat case_match; try done.
  by rewrite lookup_insert_ne.
Qed.

Lemma shutil_copy2_kept src dst :
  (forall f, p <> copy_target f src dst) ->
  preserves kept (shutil_copy2 h src dst).
Proof.
  intros Hp s Hs. unfold shutil_copy2. fold (copy_target (fs s) src dst).
  repeat case_match; try done.
  all: cbn [fst]; rewrite fs_with_fs; unfold kept.
  - rewrite interrupted_copy_lookup; [done|]. apply Hp.
  - rewrite lookup_insert_ne; [done|]. intros Heq. by apply (Hp (fs s)).
Qed.

Lemma os_chmod_kept path mode : p <> path -> preserves kept (os_chmod h path mode).
Proof.
  intros Hp s Hs. unfold os_chmod. repeat case_match; try done.
  cbn [fst]. rewrite fs_with_fs. unfold kept. by rewrite lookup_insert_ne.
Qed.

(** An asset whose name ends otherwise than [p] is copied somewhere else. *)
Lemma copy_asset_kept assets_dir target_dir name c :
  last_char name = Some c -> c <> "/"%char -> last_char p <> Some c ->
  preserves kept (copy_asset h assets_dir target_dir name).
Proof.
  intros Hname Hc Hp. unfold copy_asset.
  assert (name <> "") as Hne by (by intros ->).
  apply preserves_bind; [apply preserves_exists|]. intros [].
  - apply preserves_bind; [|intros _; apply preserves_bind; [|intros _]].
    + apply shutil_copy2_kept. intros f Heq. apply Hp.
      by rewrite Heq, (copy_target_last f assets_dir target_dir name c).
    + apply os_chmod_kept. intros Heq. apply Hp.
      by rewrite Heq, os_path_join_last.
    + apply preserves_log.
  - apply preserves_log.
Qed.

(** The directory step of [setup_files]. *)
Lemma ensure_directory_kept target_dir present :
  is_Some o \/ ~ In p (ancestors target_dir ++ [target_dir]) ->
  preserves kept
    (if negb present
     then os_makedirs h target_dir ;;
          log ("Created directory: " +:+ target_dir) GREEN
     else ret tt).
Proof.
  intros Hp. destruct (negb present); [|apply preserves_ret].
  apply preserves_bind; [by apply os_makedirs_kept|].
  intros _. apply preserves_log.
Qed.

Lemma setup_files_kept :
  last_char p <> Some "h"%char -> last_char p <> Some "s"%char ->
  (let target_dir := os_path_join (home_dir h) ".secret-manager" in
   is_Some o \/ ~ In p (ancestors target_dir ++ [target_dir])) ->
  preserves kept (setup_files h).
Proof.
  intros Hh Hs Hp. unfold setup_files.
  apply preserves_bind; [apply preserves_exists|]. intros present.
  apply preserves_bind; [by apply ensure_directory_kept|].
  intros _. apply preserves_bind; [|intros _; apply preserves_ret].
  apply preserves_for_each. intros name Hin.
  destruct (files_to_copy_last name Hin) as [Hl|Hl];
    by apply (copy_asset_kept _ _ _ _ Hl).
Qed.

End Kept.

(** ** What a computation raises *)

Lemma raises_ret {A} (a : A) : raises_Exception (ret a).
Proof. by intros s s' e. Qed.

Lemma raises_log msg color : raises_Exception (log msg color).
Proof. by intros s s' e. Qed.

Lemma raises_bind {A B} (m : M A) (k : A -> M B) :
  raises_Exception m -> (forall a, raises_Exception (k a)) ->
  raises_Exception (bind m k).
Proof.
  intros Hm Hk s s' e. unfold bind.
  destruct (m s) as [s1 [a|e1]] eqn:Hms.
  - apply Hk.
  - intros [= <- <-]. by apply (Hm s s1).
Qed.

Lemma raises_for_each {A} (xs : list A) (body : A -> M unit) :
  (forall x, raises_Exception (body x)) -> raises_Exception (for_each xs body).
Proof.
  intros Hbody. induction xs as [|x xs IH]; cbn [for_each].
  - apply raises_ret.
  - by apply raises_bind.
Qed.

Lemma raises_exists path : raises_Exception (os_path_exists path).
Proof. by intros s s' e. Qed.

Lemma raises_subprocess_run h argv check :
  raises_Exception (subprocess_run h argv check).
Proof.
  intros s s' e. unfold subprocess_run. repeat case_match; by intros [= <- <-].
Qed.

Lemma raises_os_makedirs h path : raises_Exception (os_makedirs h path).
Proof.
  intros s s' e. unfold os_makedirs. repeat case_match; by intros [= <- <-].
Qed.

Lemma raises_shutil_copy2 h src dst : raises_Exception (shutil_copy2 h src dst).
Proof.
  intros s s' e. unfold shutil_copy2. repeat case_match; by intros [= <- <-].
Qed.

Lemma raises_os_chmod h path mode : raises_Exception (os_chmod h path mode).
Proof.
  intros s s' e. unfold os_chmod. repeat case_match; by intros [= <- <-].
Qed.

Lemma raises_install_dependencies h : raises_Exception (install_dependencies h).
Proof.
  unfold install_dependencies.
  repeat first
    [ apply raises_bind; [|intros _]
    | apply raises_log
    | apply raises_subprocess_run
    | case_match ].
Qed.

Lemma raises_copy_asset h assets_dir target_dir name :
  raises_Exception (copy_asset h assets_dir target_dir name).
Proof.
  unfold copy_asset. apply raises_bind; [apply raises_exists|]. intros [].
  - repeat first
      [ apply raises_bind; [|intros _]
      | apply raises_log | apply raises_shutil_copy2 | apply raises_os_chmod ].
  - apply raises_log.
Qed.

Lemma raises_setup_files h : raises_Exception (setup_files h).
Proof.
  unfold setup_files. apply raises_bind; [apply raises_exists|]. intros present.
  apply raises_bind.
  { destruct (negb present); [|apply raises_ret].
    apply raises_bind; [apply raises_os_makedirs|]. intros _. apply raises_log. }
  intros _. apply raises_bind; [|intros _; apply raises_ret].
  apply raises_for_each. intros name. apply raises_copy_asset.
Qed.

Lemma raises_stages h : raises_Exception (stages h).
Proof.
  unfold stages. apply raises_bind; [apply raises_install_dependencies|].
  intros _. apply raises_setup_files.
Qed.

(** ** The exit code *)

Lemma exit_code_completes h s s1 target_dir :
  stages h (emit banner s) = (s1, Ok target_dir) -> exit_code h s = 0%Z.
Proof. intros Hst. unfold exit_code. by rewrite (main_completes _ _ _ _ Hst). Qed.

Lemma exit_code_fails h s s1 e :
  stages h (emit banner s) = (s1, Raise e) -> exit_code h s = 1%Z.
Proof.
  intros Hst. unfold exit_code.
  by rewrite (main_fails _ _ _ _ Hst (raises_stages _ _ _ _ Hst)).
Qed.

(** The first two stages leave an existing profile alone. *)
Lemma stages_keep_profile h s s1 r rc n :
  select_rc_file h = Some rc ->
  fs s !! rc = Some n ->
  stages h s = (s1, r) ->
  fs s1 !! rc = Some n.
Proof.
  intros Hrc Hfile Hst.
  assert (preserves (fun f => f !! rc = Some n) (stages h)) as Hp.
  { unfold stages. apply preserves_bind.
    - apply preserves_install_dependencies.
    - intros _.
      destruct (select_rc_file_last h rc Hrc) as [Hl|Hl];
        apply setup_files_kept; rewrite ?Hl; cbn zeta; by eauto. }
  specialize (Hp s Hfile). by rewrite Hst in Hp.
Qed.

(** A profile that holds the marker goes through a whole run untouched. *)
Lemma main_keeps_configured h s rc data mode :
  select_rc_file h = Some rc ->
  fs s !! rc = Some (File data mode) ->
  contains MARKER data = true ->
  fs (fst (main h s)) !! rc = Some (File data mode).
Proof.
  intros Hrc Hfile Hmark.
  destruct (stages h (emit banner s)) as [s1 [target_dir|e]] eqn:Hst.
  - rewrite (main_completes _ _ _ _ Hst). cbn [fst emit fs].
    rewrite (configure_shell_rc _ _ _ _ Hrc).
    rewrite (stages_keep_profile h (emit banner s) _ _ _ _ Hrc Hfile Hst).
    unfold rc_after. rewrite Hmark. by destruct (os_error h (SysOpenRead rc)).
  - rewrite (main_fails _ _ _ _ Hst (raises_stages _ _ _ _ Hst)).
    cbn [fst emit fs]. by apply (stages_keep_profile h (emit banner s) _ _ _ _ Hrc Hfile Hst).
Qed.

(** ** The commands of install_dependencies *)

Lemma subprocess_run_result h argv check s :
  subprocess_run h argv check s
  = (emit (Spawn argv check) s,
     match command_failure h (argv, check) with
     | Some e => Raise e
     | None => Ok tt
     end).
Proof.
  unfold subprocess_run, command_failure.
  destruct (os_error h (SysSpawn argv)); [done|].
  by destruct (check && negb (exit_status h argv =? 0)%Z).
Qed.

(** [install_dependencies] raises exactly the first failure among the
    commands of its branch. *)
Lemma install_dependencies_result h s :
  snd (install_dependencies h s)
  = match first_failure h (planned_commands h) with
    | Some e => Raise e
    | None => Ok tt
    end.
Proof.
  unfold install_dependencies, planned_commands.
  repeat match goal with
         | |- context [if ?b then _ else _] =>
             lazymatch b with
             | String.eqb _ _ => destruct b
             | which _ _ => destruct b
             end
         end;
    cbn [first_failure]; unfold bind;
    rewrite ?log_eq, ?subprocess_run_result;
    repeat match goal with
           | |- context [command_failure ?h ?c] =>
               destruct (command_failure h c);
               rewrite ?subprocess_run_result
           end;
    done.
Qed.

Lemma first_failure_In h c cs :
  In c cs -> is_Some (command_failure h c) -> is_Some (first_failure h cs).
Proof.
  induction cs as [|c' cs IH]; [done|]. intros [->|Hin] Hc; cbn [first_failure].
  - destruct Hc as [e ->]. eauto.
  - destruct (command_failure h c'); eauto.
Qed.

(** Status 1 means that a command failed or that [setup_files] raised. *)
Lemma exit_code_1_iff h s :
  exit_code h s = 1%Z <->
  is_Some (first_failure h (planned_commands h))
  \/ exists s1 s2 e,
      install_dependencies h (emit banner s) = (s1, Ok tt)
      /\ setup_files h s1 = (s2, Raise e).
Proof.
  pose proof (install_dependencies_result h (emit banner s)) as Hres.
  destruct (install_dependencies h (emit banner s)) as [s1 [[]|e]] eqn:Hi;
    cbn [snd] in Hres.
  - destruct (first_failure h (planned_commands h)) as [e|] eqn:Hff; [done|].
    destruct (setup_files h s1) as [s2 [t|e]] eqn:Hs.
    + assert (stages h (emit banner s) = (s2, Ok t)) as Hst.
      { unfold stages, bind. by rewrite Hi. }
      rewrite (exit_code_completes _ _ _ _ Hst). split; [done|].
      intros [[? [=]]|(s1' & s2' & e & [= <-] & He)]. congruence.
    + assert (stages h (emit banner s) = (s2, Raise e)) as Hst.
      { unfold stages, bind. by rewrite Hi. }
      rewrite (exit_code_fails _ _ _ _ Hst). split; [|done].
      intros _. right. by exists s1, s2, e.
  - assert (stages h (emit banner s) = (s1, Raise e)) as Hst.
    { unfold stages, bind. by rewrite Hi. }
    rewrite (exit_code_fails _ _ _ _ Hst). split; [|done].
    intros _. left. destruct (first_failure h (planned_commands h)); eauto.
    discriminate.
Qed.

Lemma exit_code_0_or_1 h s : (exit_code h s = 0 \/ exit_code h s = 1)%Z.
Proof.
  destruct (stages h (emit banner s)) as [s1 [t|e]] eqn:Hst.
  - left. by apply (exit_code_completes _ _ _ _ Hst).
  - right. by apply (exit_code_fails _ _ _ _ Hst).
Qed.

(** C2: the installer ends with status 0 or 1.  It is 1 exactly when a
    command of the platform's branch fails ([check=True] and a non-zero
    status, or a process that cannot be started) or [setup_files] raises; in
    particular a non-zero status of any checked command gives 1.  The
    exception is caught in [main], printed in red after "Installation
    failed: ", and turned into [sys.exit(1)].  In every other run, whatever
    was missing on the way, [main] prints the completion line and returns;
    [configure_shell] never raises, so nothing it meets changes the status. *)
Theorem C2_exit_code h s :
  let s0 := emit banner s in
  (exit_code h s = 0 \/ exit_code h s = 1)%Z
  /\ (exit_code h s = 1%Z <->
      is_Some (first_failure h (planned_commands h))
      \/ exists s1 s2 e,
          install_dependencies h s0 = (s1, Ok tt)
          /\ setup_files h s1 = (s2, Raise e))
  /\ (forall argv,
         In (argv, true) (planned_commands h) ->
         exit_status h argv <> 0%Z -> exit_code h s = 1%Z)
  /\ (forall s1 e,
         stages h s0 = (s1, Raise e) ->
         main h s = (emit (failed h e) s1, Raise (SystemExit 1)))
  /\ (forall s1 target_dir,
         stages h s0 = (s1, Ok target_dir) ->
         main h s = (emit complete (fst (configure_shell h target_dir s1)), Ok tt))
  /\ (forall install_path s', snd (configure_shell h install_path s') = Ok tt).
Proof.
  cbn zeta.
  pose proof (exit_code_1_iff h s) as Hone.
  split; [|split; [done|split; [|split; [|split]]]].
  - apply exit_code_0_or_1.
  - intros argv Hin Hrc. apply Hone. left.
    apply (first_failure_In h (argv, true)); [done|].
    unfold command_failure. destruct (os_error h (SysSpawn argv)); [eauto|].
    rewrite (proj2 (Z.eqb_neq _ _) Hrc). cbn. eauto.
  - intros s1 e Hst. apply main_fails; [done|]. by apply (raises_stages _ _ _ _ Hst).
  - intros s1 t Hst. by apply main_completes.
  - intros install_path s'.
    by destruct (configure_shell_returns h install_path s') as [s2 ->].
Qed.

(** Two runs of the whole script: the Debian machine completes, the one
    whose repository refresh fails stops there with status 1 and says why. *)
Example exit_code_examples :
  exit_code Examples.debian Examples.fresh = 0%Z
  /\ exit_code Examples.offline Examples.fresh = 1%Z
  /\ last (out (fst (main Examples.offline Examples.fresh)))
     = Some (Print (RED +:+ nl
                    +:+ "Installation failed: Command '['sudo', 'apt-get', 'update']' returned non-zero exit status 100."
                    +:+ RESET)).
Proof. by vm_compute. Qed.

(** ** No SHELL in the environment *)

(** C10: with SHELL unset the empty string stands in for it, no profile is
    selected, and [configure_shell] prints its warning and returns without
    touching a file.  A run whose first two stages went through then
    completes: the warning, the completion line, status 0. *)
Theorem C10_unset_shell h s :
  env_SHELL h = None ->
  default "" (env_SHELL h) = ""
  /\ select_rc_file h = None
  /\ (forall install_path s',
         configure_shell h install_path s' = (emit no_shell_warning s', Ok tt))
  /\ (forall s1 target_dir,
         stages h (emit banner s) = (s1, Ok target_dir) ->
         main h s = (emits [no_shell_warning; complete] s1, Ok tt)
         /\ exit_code h s = 0%Z).
Proof.
  intros Hshell.
  assert (select_rc_file h = None) as Hnone.
  { unfold select_rc_file. by rewrite Hshell. }
  split; [by rewrite Hshell|]. split; [done|]. split.
  - intros install_path s'. by apply configure_shell_unclassified.
  - intros s1 target_dir Hst. split.
    + rewrite (main_completes _ _ _ _ Hst).
      rewrite configure_shell_unclassified by done. cbn [fst].
      fold no_shell_warning. by trace_nf.
    + by apply (exit_code_completes _ _ _ _ Hst).
Qed.

Lemma C10_unset_shell_witness :
  let h := Examples.bare "Linux" in
  default "" (env_SHELL h) = ""
  /\ select_rc_file h = None
  /\ (forall install_path s',
         configure_shell h install_path s' = (emit no_shell_warning s', Ok tt))
  /\ (forall s1 target_dir,
         stages h (emit banner Examples.fresh) = (s1, Ok target_dir) ->
         main h Examples.fresh = (emits [no_shell_warning; complete] s1, Ok tt)
         /\ exit_code h Examples.fresh = 0%Z).
Proof.
  apply (C10_unset_shell (Examples.bare "Linux") Examples.fresh).
  reflexivity.
Defined.

(** The same machine, run: nothing to install with, nothing to configure,
    and still status 0. *)
Example unset_shell_run :
  exit_code (Examples.bare "Linux") Examples.blank = 0%Z
  /\ fs (fst (main (Examples.bare "Linux") Examples.blank))
     = <["/home/ada/.secret-manager" := Dir (octal 7 5 5)]>
         (<["/home/ada" := Dir (octal 7 5 5)]>
            (<["/home" := Dir (octal 7 5 5)]> ∅)).
Proof. by vm_compute. Qed.

(** ** Deployed assets *)

Lemma bind_Ok_inv {A B} (m : M A) (k : A -> M B) s s' b :
  bind m k s = (s', Ok b) ->
  exists s1 a, m s = (s1, Ok a) /\ k a s1 = (s', Ok b).
Proof.
  unfold bind. destruct (m s) as [s1 [a|e]]; [|done]. intros Hk. eauto.
Qed.

Section Grows.

Variables (h : Host) (p : string).

(** Nothing the installer does removes a path. *)
Let there (f : gmap string node) : Prop := is_Some (f !! p).

Lemma os_makedirs_grows path : preserves there (os_makedirs h path).
Proof.
  intros s [n Hn]. unfold there. exists n.
  by apply (os_makedirs_kept h p (Some n) path
              (or_introl (mk_is_Some _ _ eq_refl)) s).
Qed.

Lemma shutil_copy2_grows src dst : preserves there (shutil_copy2 h src dst).
Proof.
  intros s Hs. unfold shutil_copy2, interrupted_copy.
  repeat case_match; try done.
  all: cbn [fst]; rewrite fs_with_fs; unfold there.
  all: rewrite lookup_insert_is_Some'; by right.
Qed.

Lemma os_chmod_grows path mode : preserves there (os_chmod h path mode).
Proof.
  intros s Hs. unfold os_chmod. repeat case_match; try done.
  cbn [fst]. rewrite fs_with_fs. unfold there.
  rewrite lookup_insert_is_Some'. by right.
Qed.

Lemma copy_asset_grows assets_dir target_dir name :
  preserves there (copy_asset h assets_dir target_dir name).
Proof.
  unfold copy_asset. apply preserves_bind; [apply preserves_exists|]. intros [].
  - repeat first
      [ apply preserves_bind; [|intros _]
      | apply preserves_log | apply shutil_copy2_grows | apply os_chmod_grows ].
  - apply preserves_log.
Qed.

End Grows.



Lemma setup_files_Ok_inv h s s' target_dir :
  setup_files h s = (s', Ok target_dir) ->
  target_dir = os_path_join (home_dir h) ".secret-manager"
  /\ exists s1 s2,
      (if negb (bool_decide (is_Some (fs s !! target_dir)))
       then os_makedirs h target_dir ;;
            log ("Created directory: " +:+ target_dir) GREEN
       else ret tt) s = (s1, Ok tt)
      /\ copy_asset h (os_path_join (script_dir h) "assets") target_dir
           "manage-secrets.sh" s1 = (s2, Ok tt)
      /\ copy_asset h (os_path_join (script_dir h) "assets") target_dir
           "get-secrets.js" s2 = (s', Ok tt).
Proof.
  unfold setup_files. intros Hrun.
  apply bind_Ok_inv in Hrun as (s0 & present & Hex & Hrun).
  unfold os_path_exists in Hex. simplify_eq.
  apply bind_Ok_inv in Hrun as (s1 & [] & Hdir & Hrun).
  apply bind_Ok_inv in Hrun as (s3 & [] & Hloop & Hret).
  unfold ret in Hret. simplify_eq. split; [done|].
  cbn [for_each files_to_copy] in Hloop.
  apply bind_Ok_inv in Hloop as (s2 & [] & Hfirst & Hloop).
  apply bind_Ok_inv in Hloop as (s4 & [] & Hsecond & Hret).
  unfold ret in Hret. simplify_eq. eauto.
Qed.



(** ** Missing assets *)


(** The turn of any asset: it adds to what was printed, and raises nothing
    but the failure of one of its own two calls. *)
Lemma copy_asset_outcome h assets_dir target_dir name s :
  let r := copy_asset h assets_dir target_dir name s in
  (exists evs, out (fst r) = out s ++ evs)
  /\ (forall e, snd r = Raise e ->
        exists call msg,
          e = OSError call msg /\ concerns assets_dir target_dir name call).
Proof.
  cbn zeta. unfold copy_asset, concerns, bind, os_path_exists, shutil_copy2,
    os_chmod, log.
  repeat case_match; simplify_eq; cbn [fst snd emit with_fs out];
    (split; [|intros e' He'; simplify_eq; eauto 6]).
  all: try (by exists []; rewrite app_nil_r).
  all: by eexists [_].
Qed.


(** [setup_files], step by step. *)
Lemma setup_files_steps h s :
  let target_dir := os_path_join (home_dir h) ".secret-manager" in
  let assets_dir := os_path_join (script_dir h) "assets" in
  setup_files h s
  = match (if negb (bool_decide (is_Some (fs s !! target_dir)))
           then os_makedirs h target_dir ;;
                log ("Created directory: " +:+ target_dir) GREEN
           else ret tt) s with
    | (s1, Raise e) => (s1, Raise e)
    | (s1, Ok _) =>
        match copy_asset h assets_dir target_dir "manage-secrets.sh" s1 with
        | (s2, Raise e) => (s2, Raise e)
        | (s2, Ok _) =>
            match copy_asset h assets_dir target_dir "get-secrets.js" s2 with
            | (s3, Raise e) => (s3, Raise e)
            | (s3, Ok _) => (s3, Ok target_dir)
            end
        end
    end.
Proof.
  cbn zeta. unfold setup_files.
  rewrite (bind_Ok _ _ s s _ eq_refl).
  match goal with
  | |- bind ?m _ _ = _ => destruct (m s) as [s1 [[]|e]] eqn:Hdir
  end.
  2: { by rewrite (bind_Raise _ _ _ _ _ Hdir). }
  rewrite (bind_Ok _ _ _ _ _ Hdir). cbn [for_each files_to_copy].
  unfold bind, ret.
  repeat match goal with
         | |- context [copy_asset ?h ?a ?t ?n ?s] =>
             destruct (copy_asset h a t n s) as [? [[]|?]]
         end; reflexivity.
Qed.





(** The run on that machine: the shell script is deployed, the missing
    companion is named in a warning, and the status is 0. *)
Example incomplete_package_run :
  let s' := fst (main Examples.debian Examples.incomplete) in
  exit_code Examples.debian Examples.incomplete = 0%Z
  /\ fs s' !! "/home/ada/.secret-manager/manage-secrets.sh"
     = Some (File "#!/bin/sh" (octal 7 5 5))
  /\ fs s' !! "/home/ada/.secret-manager/get-secrets.js" = None
  /\ In (asset_warning Examples.assets "get-secrets.js") (out s').
Proof. vm_compute. tauto. Qed.

(** ** Idempotence *)

(** A first run that completes on a readable, writable profile without the
    marker appends the block; the run after it adds nothing. *)
Lemma main_twice_one_block h s rc old mode :
  select_rc_file h = Some rc ->
  fs s !! rc = Some (File old mode) ->
  contains MARKER old = false ->
  os_error h (SysOpenRead rc) = None ->
  os_error h (SysOpenAppend rc) = None ->
  exit_code h s = 0%Z ->
  let block := config_text (os_path_join (home_dir h) ".secret-manager") in
  fs (fst (main h s)) !! rc = Some (File (old +:+ block) mode)
  /\ fs (fst (main h (fst (main h s)))) !! rc = Some (File (old +:+ block) mode).
Proof.
  intros Hrc Hfile Hmark Hread Happ Hzero block.
  assert (fs (fst (main h s)) !! rc = Some (File (old +:+ block) mode)) as Hone.
  { destruct (stages h (emit banner s)) as [s1 [target_dir|e]] eqn:Hst.
    2: { rewrite (exit_code_fails _ _ _ _ Hst) in Hzero. discriminate Hzero. }
    rewrite (main_completes _ _ _ _ Hst). cbn [fst emit fs].
    rewrite (configure_shell_rc _ _ _ _ Hrc).
    rewrite (stages_keep_profile h (emit banner s) _ _ _ _ Hrc Hfile Hst).
    unfold stages in Hst.
    apply bind_Ok_inv in Hst as (s0 & [] & _ & Hset).
    apply setup_files_Ok_inv in Hset as [-> _].
    unfold rc_after. by rewrite Hread, Hmark, Happ. }
  split; [done|].
  apply main_keeps_configured; [done..|].
  apply contains_app_r, config_text_has_marker.
Qed.

(** C1: when the selected profile already holds the marker,
    [configure_shell] writes nothing, and if the file can be read it says
    that the configuration already exists.  A whole run of the installer
    leaves such a file exactly as it is.  Since the block carries the
    marker, a run that ends with the profile closed by the block is followed
    by runs that keep it so.  In particular two runs in a row on a profile
    that had no marker, the first one completing and appending, leave the
    old content followed by the block once, not twice.  A second
    [configure_shell] in a row never changes the file system, whatever the
    first one met. *)
Theorem C1_configure_shell_idempotent h install_path s rc data mode :
  select_rc_file h = Some rc ->
  fs s !! rc = Some (File data mode) ->
  contains MARKER data = true ->
  fs (fst (configure_shell h install_path s)) = fs s
  /\ (os_error h (SysOpenRead rc) = None ->
      configure_shell h install_path s
      = (emits [Print (YELLOW +:+ ("Configuring " +:+ rc +:+ "...") +:+ RESET);
                Print (YELLOW
                       +:+ "Configuration already exists in RC file. Skipping append."
                       +:+ RESET)] s, Ok tt))
  /\ fs (fst (main h s)) !! rc = Some (File data mode)
  /\ (forall s0 old path mode0,
         fs (fst (main h s0)) !! rc
         = Some (File (old +:+ config_text path) mode0) ->
         fs (fst (main h (fst (main h s0)))) !! rc
         = Some (File (old +:+ config_text path) mode0))
  /\ (forall s0 old mode0,
         fs s0 !! rc = Some (File old mode0) ->
         contains MARKER old = false ->
         os_error h (SysOpenRead rc) = None ->
         os_error h (SysOpenAppend rc) = None ->
         exit_code h s0 = 0%Z ->
         let block := config_text (os_path_join (home_dir h) ".secret-manager") in
         fs (fst (main h s0)) !! rc = Some (File (old +:+ block) mode0)
         /\ fs (fst (main h (fst (main h s0)))) !! rc
            = Some (File (old +:+ block) mode0))
  /\ (forall s0,
         let s1 := fst (configure_shell h install_path s0) in
         fs (fst (configure_shell h install_path s1)) = fs s1).
Proof.
  intros Hrc Hfile Hmark. split; [|split; [|split; [|split; [|split]]]].
  - apply map_eq. intros p. destruct (decide (p = rc)) as [->|Hp].
    + rewrite (configure_shell_rc _ _ _ _ Hrc), Hfile. unfold rc_after.
      rewrite Hmark. by destruct (os_error h (SysOpenRead rc)).
    + destruct (configure_shell_frame h install_path s) as (lines & f & -> & Hf).
      cbn [fst]. trace_nf. apply Hf. congruence.
  - intros Hread.
    by apply (configure_shell_skip h install_path s rc Hrc data mode).
  - by apply main_keeps_configured.
  - intros s0 old path mode0 Hfirst.
    apply main_keeps_configured; [done..|].
    apply contains_app_r, config_text_has_marker.
  - intros s0 old mode0 Hfile0 Hmark0 Hread Happ Hzero.
    by apply main_twice_one_block.
  - intros s0. apply configure_shell_twice.
Qed.

(** The Debian machine after a first run, run again. *)
Lemma C1_configure_shell_idempotent_witness :
  let s := fst (main Examples.debian Examples.fresh) in
  let rc := "/home/ada/.bashrc" in
  let data := "export EDITOR=vi" +:+ config_text "/home/ada/.secret-manager" in
  fs (fst (configure_shell Examples.debian "/home/ada/.secret-manager" s)) = fs s
  /\ (os_error Examples.debian (SysOpenRead rc) = None ->
      configure_shell Examples.debian "/home/ada/.secret-manager" s
      = (emits [Print (YELLOW +:+ ("Configuring " +:+ rc +:+ "...") +:+ RESET);
                Print (YELLOW
                       +:+ "Configuration already exists in RC file. Skipping append."
                       +:+ RESET)] s, Ok tt))
  /\ fs (fst (main Examples.debian s)) !! rc = Some (File data (octal 6 4 4))
  /\ (forall s0 old path mode0,
         fs (fst (main Examples.debian s0)) !! rc
         = Some (File (old +:+ config_text path) mode0) ->
         fs (fst (main Examples.debian (fst (main Examples.debian s0)))) !! rc
         = Some (File (old +:+ config_text path) mode0))
  /\ (forall s0 old mode0,
         fs s0 !! rc = Some (File old mode0) ->
         contains MARKER old = false ->
         os_error Examples.debian (SysOpenRead rc) = None ->
         os_error Examples.debian (SysOpenAppend rc) = None ->
         exit_code Examples.debian s0 = 0%Z ->
         let block := config_text (os_path_join (home_dir Examples.debian) ".secret-manager") in
         fs (fst (main Examples.debian s0)) !! rc = Some (File (old +:+ block) mode0)
         /\ fs (fst (main Examples.debian (fst (main Examples.debian s0)))) !! rc
            = Some (File (old +:+ block) mode0))
  /\ (forall s0,
         let s1 := fst (configure_shell Examples.debian
                          "/home/ada/.secret-manager" s0) in
         fs (fst (configure_shell Examples.debian "/home/ada/.secret-manager" s1))
         = fs s1).
Proof.
  apply (C1_configure_shell_idempotent Examples.debian
           "/home/ada/.secret-manager"
           (fst (main Examples.debian Examples.fresh)) "/home/ada/.bashrc"
           ("export EDITOR=vi" +:+ config_text "/home/ada/.secret-manager")
           (octal 6 4 4)).
  - reflexivity.
  - vm_compute. reflexivity.
  - vm_compute. reflexivity.
Defined.

(** The Debian machine, installed twice from scratch: the profile holds its
    old line and one block. *)
Example two_runs_one_block :
  let s2 := fst (main Examples.debian (fst (main Examples.debian Examples.fresh))) in
  exists data,
    fs s2 !! "/home/ada/.bashrc" = Some (File data (octal 6 4 4))
    /\ String.prefix "export EDITOR=vi" data = true
    /\ occurrences "# Secret Manager Configuration" data = 1
    /\ occurrences "export SECRETS_MANAGER_PATH=" data = 1
    /\ occurrences "alias secret-" data = 3.
Proof. eexists. by vm_compute. Qed.

(** * Further properties *)

(** ** The processes the installer starts *)

Lemma spawned_app evs evs' : spawned (evs ++ evs') = spawned evs ++ spawned evs'.
Proof.
  induction evs as [|[line|argv check] evs IH]; cbn [spawned app]; [done..|].
  by rewrite IH.
Qed.

Lemma spawned_prints lines : spawned (map Print lines) = [].
Proof. by induction lines. Qed.

Lemma install_dependencies_spawned h s :
  spawned (out (fst (install_dependencies h s)))
  = spawned (out s) ++ attempted h (planned_commands h).
Proof.
  unfold install_dependencies, planned_commands.
  repeat match goal with
         | |- context [if ?b then _ else _] =>
             lazymatch b with
             | String.eqb _ _ => destruct b
             | which _ _ => destruct b
             end
         end;
    cbn [attempted]; unfold bind;
    rewrite ?log_eq, ?subprocess_run_result;
    repeat match goal with
           | |- context [command_failure ?h ?c] =>
               destruct (command_failure h c);
               rewrite ?subprocess_run_result
           end;
    cbn [fst out emit]; rewrite !spawned_app; cbn [spawned];
    by rewrite ?app_nil_r, <- ?app_assoc.
Qed.

(** X1: [install_dependencies] starts the commands of its branch in the
    order written, the next one only when the one before did not fail, and
    raises the error of the first that fails: after a failed repository
    refresh no package is installed, after a failed cask install (which is
    not checked) the required install still runs. *)
Theorem X1_install_dependencies_attempts h s :
  spawned (out (fst (install_dependencies h s)))
  = spawned (out s) ++ attempted h (planned_commands h)
  /\ snd (install_dependencies h s)
     = match first_failure h (planned_commands h) with
       | Some e => Raise e
       | None => Ok tt
       end.
Proof.
  split; [apply install_dependencies_spawned|apply install_dependencies_result].
Qed.

(** On the machine whose repository refresh fails, the refresh is the only
    process started. *)
Example offline_attempts :
  spawned (out (fst (install_dependencies Examples.offline Examples.fresh)))
  = [(["sudo"; "apt-get"; "update"], true)].
Proof. by vm_compute. Qed.

(** ** Only install_dependencies starts processes *)

Lemma only_prints_ret {A} (a : A) : only_prints (ret a).
Proof. intros s. exists []. cbn. by rewrite app_nil_r. Qed.

Lemma only_prints_log msg color : only_prints (log msg color).
Proof. intros s. by eexists [_]. Qed.

Lemma only_prints_bind {A B} (m : M A) (k : A -> M B) :
  only_prints m -> (forall a, only_prints (k a)) -> only_prints (bind m k).
Proof.
  intros Hm Hk s. unfold bind. destruct (Hm s) as [lines Hlines].
  destruct (m s) as [s1 [a|e]]; cbn [fst] in *; [|eauto].
  destruct (Hk a s1) as [lines' Hlines'].
  exists (lines ++ lines'). by rewrite Hlines', Hlines, map_app, app_assoc.
Qed.

Lemma only_prints_for_each {A} (xs : list A) (body : A -> M unit) :
  (forall x, only_prints (body x)) -> only_prints (for_each xs body).
Proof.
  intros Hbody. induction xs as [|x xs IH]; cbn [for_each].
  - apply only_prints_ret.
  - by apply only_prints_bind.
Qed.

(** A call that leaves the trace alone. *)
Lemma only_prints_silent {A} (m : M A) :
  (forall s, out (fst (m s)) = out s) -> only_prints m.
Proof. intros Hm s. exists []. cbn. by rewrite app_nil_r. Qed.

Lemma only_prints_copy_asset h assets_dir target_dir name :
  only_prints (copy_asset h assets_dir target_dir name).
Proof.
  unfold copy_asset.
  apply only_prints_bind; [by apply only_prints_silent|]. intros [].
  - apply only_prints_bind; [|intros _; apply only_prints_bind; [|intros _]].
    + apply only_prints_silent. intros s. unfold shutil_copy2.
      by repeat case_match.
    + apply only_prints_silent. intros s. unfold os_chmod.
      by repeat case_match.
    + apply only_prints_log.
  - apply only_prints_log.
Qed.

Lemma only_prints_setup_files h : only_prints (setup_files h).
Proof.
  unfold setup_files.
  apply only_prints_bind; [by apply only_prints_silent|]. intros present.
  apply only_prints_bind.
  { destruct (negb present); [|apply only_prints_ret].
    apply only_prints_bind; [|intros _; apply only_prints_log].
    apply only_prints_silent. intros s. unfold os_makedirs.
    by repeat case_match. }
  intros _. apply only_prints_bind; [|intros _; apply only_prints_ret].
  apply only_prints_for_each. intros name. apply only_prints_copy_asset.
Qed.

Lemma only_prints_configure_shell h install_path :
  only_prints (configure_shell h install_path).
Proof.
  intros s.
  destruct (configure_shell_frame h install_path s) as (lines & f & -> & _).
  by exists lines.
Qed.

Lemma main_spawned h s :
  spawned (out (fst (main h s)))
  = spawned (out s) ++ attempted h (planned_commands h).
Proof.
  pose proof (install_dependencies_spawned h (emit banner s)) as Hinst.
  cbn [out emit] in Hinst. rewrite spawned_app, app_nil_r in Hinst.
  destruct (stages h (emit banner s)) as [s2 r] eqn:Hst.
  assert (exists lines,
             out s2 = out (fst (install_dependencies h (emit banner s)))
                      ++ map Print lines) as [lines Hout].
  { unfold stages, bind in Hst.
    destruct (install_dependencies h (emit banner s)) as [s1 [[]|e]].
    - destruct (only_prints_setup_files h s1) as [lines Hlines].
      rewrite Hst in Hlines. by exists lines.
    - simplify_eq. exists []. cbn. by rewrite app_nil_r. }
  assert (spawned (out s2) = spawned (out s) ++ attempted h (planned_commands h))
    as Hs2.
  { by rewrite Hout, spawned_app, spawned_prints, app_nil_r. }
  destruct r as [target_dir|e].
  - rewrite (main_completes _ _ _ _ Hst). cbn [fst out emit].
    destruct (only_prints_configure_shell h target_dir s2) as [lines' ->].
    by rewrite !spawned_app, spawned_prints, !app_nil_r.
  - rewrite (main_fails _ _ _ _ Hst (raises_stages _ _ _ _ Hst)).
    cbn [fst out emit]. by rewrite spawned_app, app_nil_r.
Qed.

(** X2: the only processes a run of the installer starts are the
    package-manager commands of the platform's branch, in order and up to
    the first failure; [setup_files] and [configure_shell] start none. *)
Theorem X2_main_spawns_only_planned h s :
  spawned (out (fst (main h s)))
  = spawned (out s) ++ attempted h (planned_commands h)
  /\ only_prints (setup_files h)
  /\ (forall install_path, only_prints (configure_shell h install_path)).
Proof.
  split; [apply main_spawned|]. split; [apply only_prints_setup_files|].
  intros install_path. apply only_prints_configure_shell.
Qed.

(** ** A failed command *)

(** X3: when a command of the branch fails, the run stops there: [main]
    prints the failure with its cause and exits with status 1, and the file
    system is as it was: no directory is created, no asset copied, no
    profile changed. *)
Theorem X3_failed_command_stops_the_run h s e :
  first_failure h (planned_commands h) = Some e ->
  main h s
  = (emit (failed h e) (fst (install_dependencies h (emit banner s))),
     Raise (SystemExit 1))
  /\ fs (fst (main h s)) = fs s
  /\ exit_code h s = 1%Z.
Proof.
  intros Hfail.
  pose proof (install_dependencies_result h (emit banner s)) as Hres.
  rewrite Hfail in Hres.
  assert (stages h (emit banner s)
          = (fst (install_dependencies h (emit banner s)), Raise e)) as Hst.
  { unfold stages, bind.
    destruct (install_dependencies h (emit banner s)) as [s1 r].
    cbn [fst snd] in *. by rewrite Hres. }
  pose proof (main_fails _ _ _ _ Hst (raises_stages _ _ _ _ Hst)) as Hmain.
  split; [done|]. split.
  - rewrite Hmain. cbn [fst emit fs]. by rewrite install_dependencies_fs.
  - by apply (exit_code_fails _ _ _ _ Hst).
Qed.

Lemma X3_failed_command_stops_the_run_witness :
  let e := CalledProcessError ["sudo"; "apt-get"; "update"] 100 in
  main Examples.offline Examples.fresh
  = (emit (failed Examples.offline e)
       (fst (install_dependencies Examples.offline (emit banner Examples.fresh))),
     Raise (SystemExit 1))
  /\ fs (fst (main Examples.offline Examples.fresh)) = fs Examples.fresh
  /\ exit_code Examples.offline Examples.fresh = 1%Z.
Proof.
  apply (X3_failed_command_stops_the_run Examples.offline Examples.fresh).
  reflexivity.
Defined.

(** ** What a run leaves alone *)

Section Frame.

Variables (h : Host) (p : string) (o : option node).

Lemma copy_asset_frame name :
  ~ In p (asset_paths h name) ->
  preserves (fun f => f !! p = o)
    (copy_asset h (os_path_join (script_dir h) "assets") (install_dir h) name).
Proof.
  unfold asset_paths. cbn [In]. intros Hp. unfold copy_asset.
  apply preserves_bind; [apply preserves_exists|]. intros [].
  - apply preserves_bind; [|intros _; apply preserves_bind; [|intros _]].
    + apply shutil_copy2_kept. intros f Heq. apply Hp.
      unfold copy_target in Heq. destruct (is_dir f _); auto.
    + apply os_chmod_kept. intros Heq. apply Hp. auto.
    + apply preserves_log.
  - apply preserves_log.
Qed.

Hypothesis Hassets :
  forall name, In name files_to_copy -> ~ In p (asset_paths h name).
Hypothesis Hdirs : is_Some o \/ ~ In p (created_dirs h).

Lemma setup_files_frame : preserves (fun f => f !! p = o) (setup_files h).
Proof.
  unfold setup_files. fold (install_dir h).
  apply preserves_bind; [apply preserves_exists|]. intros present.
  apply preserves_bind; [by apply ensure_directory_kept|].
  intros _. apply preserves_bind; [|intros _; apply preserves_ret].
  apply preserves_for_each. intros name Hin.
  by apply copy_asset_frame, Hassets.
Qed.

Lemma stages_frame s s1 r :
  fs s !! p = o -> stages h s = (s1, r) -> fs s1 !! p = o.
Proof.
  intros Hp Hst.
  assert (preserves (fun f => f !! p = o) (stages h)) as Hpres.
  { unfold stages. apply preserves_bind.
    - apply preserves_install_dependencies.
    - intros _. apply setup_files_frame. }
  specialize (Hpres s Hp). by rewrite Hst in Hpres.
Qed.

Lemma main_frame s :
  select_rc_file h <> Some p ->
  fs s !! p = o ->
  fs (fst (main h s)) !! p = o.
Proof.
  intros Hrc Hp.
  destruct (stages h (emit banner s)) as [s1 [target_dir|e]] eqn:Hst.
  - rewrite (main_completes _ _ _ _ Hst). cbn [fst emit fs].
    destruct (configure_shell_frame h target_dir s1) as (lines & f & -> & Hf).
    cbn [fst]. rewrite fs_emits, fs_with_fs, (Hf p Hrc).
    by apply (stages_frame (emit banner s) s1 (Ok target_dir)).
  - rewrite (main_fails _ _ _ _ Hst (raises_stages _ _ _ _ Hst)).
    cbn [fst emit fs].
    by apply (stages_frame (emit banner s) s1 (Raise e)).
Qed.

End Frame.

(** X4: a run changes nothing outside the paths it is about.  Whatever is
    found at a path, a node or nothing, is found there after [main] too,
    provided the path is not the selected profile, not one of the paths an
    asset is written to, and, if nothing is there, not one of the
    directories [os.makedirs] creates. *)
Theorem X4_main_frame h s p o :
  fs s !! p = o ->
  select_rc_file h <> Some p ->
  (forall name, In name files_to_copy -> ~ In p (asset_paths h name)) ->
  is_Some o \/ ~ In p (created_dirs h) ->
  fs (fst (main h s)) !! p = o.
Proof. intros Hp Hrc Hassets Hdirs. by apply main_frame. Qed.

Lemma X4_main_frame_witness :
  fs (fst (main Examples.debian Examples.fresh))
    !! "/opt/manage-secret/src/secret_manager/assets/get-secrets.js"
  = Some (File "// js" (octal 6 4 4)).
Proof.
  apply (X4_main_frame Examples.debian Examples.fresh).
  - reflexivity.
  - vm_compute. discriminate.
  - vm_compute. intros name [<-|[<-|[]]] [H|[H|[]]]; discriminate H.
  - left. vm_compute. eauto.
Defined.

(** ** The install directory *)

Lemma install_dir_last h : last_char (install_dir h) = Some "r"%char.
Proof. unfold install_dir. by rewrite os_path_join_last. Qed.

(** Every path an asset is written to ends the way the asset's name does. *)
Lemma asset_paths_last h name q c :
  last_char name = Some c -> c <> "/"%char ->
  In q (asset_paths h name) -> last_char q = Some c.
Proof.
  intros Hname Hc. assert (name <> "") as Hne by (by intros ->).
  unfold asset_paths. cbn [In]. intros [<-|[<-|[]]].
  - by rewrite os_path_join_last.
  - pose proof (os_path_basename_last
                  (os_path_join (os_path_join (script_dir h) "assets") name) c)
      as Hbase.
    rewrite os_path_join_last in Hbase by done. specialize (Hbase Hname Hc).
    rewrite os_path_join_last; [done|]. intros Hempty.
    by rewrite Hempty in Hbase.
Qed.

Lemma asset_paths_not h name q :
  In name files_to_copy ->
  last_char q <> Some "h"%char -> last_char q <> Some "s"%char ->
  ~ In q (asset_paths h name).
Proof.
  intros Hin Hh Hs Hq.
  destruct (files_to_copy_last name Hin) as [Hl|Hl];
    pose proof (asset_paths_last h name q _ Hl ltac:(done) Hq); congruence.
Qed.

(** X5: an install directory that is already there is not an error and is
    not made again: after a whole run the node at its path is the one found
    before, and whatever [setup_files] raises, it is not a failure of
    [os.makedirs]. *)
Theorem X5_existing_install_dir h s n :
  fs s !! install_dir h = Some n ->
  fs (fst (main h s)) !! install_dir h = Some n
  /\ forall s' e msg,
      setup_files h s = (s', Raise e) ->
      e <> OSError (SysMakedirs (install_dir h)) msg.
Proof.
  intros Hdir. split.
  - apply main_frame; [|by left| |done].
    + intros name Hin. apply asset_paths_not; [done|..];
        rewrite install_dir_last; by intros [=].
    + intros Hrc. destruct (select_rc_file_last h _ Hrc) as [Hl|Hl];
        rewrite install_dir_last in Hl; by simplify_eq.
  - intros s' e msg Hrun ->. rewrite setup_files_steps in Hrun.
    fold (install_dir h) in Hrun.
    rewrite (exists_Some _ _ _ Hdir) in Hrun. cbn [negb] in Hrun.
    unfold ret in Hrun.
    set (assets_dir := os_path_join (script_dir h) "assets") in *.
    pose proof (copy_asset_outcome h assets_dir (install_dir h)
                  "manage-secrets.sh" s) as [_ Hfirst].
    destruct (copy_asset h assets_dir (install_dir h) "manage-secrets.sh" s)
      as [s2 [[]|e2]]; cbn [snd] in *.
    + pose proof (copy_asset_outcome h assets_dir (install_dir h)
                    "get-secrets.js" s2) as [_ Hsecond].
      destruct (copy_asset h assets_dir (install_dir h) "get-secrets.js" s2)
        as [s3 [[]|e3]]; cbn [snd] in *; simplify_eq.
      destruct (Hsecond _ eq_refl) as (call & msg' & Heq & [Hc|Hc]);
        by simplify_eq.
    + simplify_eq.
      destruct (Hfirst _ eq_refl) as (call & msg' & Heq & [Hc|Hc]);
        by simplify_eq.
Qed.

Lemma X5_existing_install_dir_witness :
  let s := fst (main Examples.debian Examples.fresh) in
  fs (fst (main Examples.debian s)) !! install_dir Examples.debian
  = Some (Dir (octal 7 5 5))
  /\ forall s' e msg,
      setup_files Examples.debian s = (s', Raise e) ->
      e <> OSError (SysMakedirs (install_dir Examples.debian)) msg.
Proof.
  apply (X5_existing_install_dir Examples.debian
           (fst (main Examples.debian Examples.fresh))).
  vm_compute. reflexivity.
Defined.

(** ** A directory that cannot be made *)

Lemma with_fs_same s : with_fs (fs s) s = s.
Proof. by destruct s. Qed.

(** Directories that are there are passed over. *)
Lemma make_missing_skip h mode qs rest (f : gmap string node) :
  (forall q, In q qs -> is_Some (f !! q)) ->
  make_missing h mode (qs ++ rest) f = make_missing h mode rest f.
Proof.
  induction qs as [|q qs IH]; intros Hqs; [done|]. cbn [app make_missing].
  destruct (Hqs q (or_introl eq_refl)) as [n ->].
  apply IH. intros q' Hq'. apply Hqs. by right.
Qed.

(** A missing directory whose [os.mkdir] fails is still missing afterwards,
    and, if it is on the list, the call has failed. *)
Lemma make_missing_stuck h mode qs (f : gmap string node) path msg :
  f !! path = None ->
  os_error h (SysMakedirs path) = Some msg ->
  fst (make_missing h mode qs f) !! path = None
  /\ (In path qs -> is_Some (snd (make_missing h mode qs f))).
Proof.
  intros Habsent Herr. revert f Habsent.
  induction qs as [|q qs IH]; intros f Habsent; cbn [make_missing].
  - by split.
  - destruct (f !! q) eqn:Hq.
    + destruct (IH f Habsent) as [Hkeep Hfail]. split; [done|].
      intros [->|Hin]; [congruence|by apply Hfail].
    + destruct (os_error h (SysMakedirs q)) as [msg'|] eqn:Hq'.
      { split; [done|]. intros _. by eexists. }
      assert (q <> path) as Hne by congruence.
      destruct (IH (<[q := Dir mode]> f)) as [Hkeep Hfail].
      { by rewrite lookup_insert_ne. }
      split; [done|]. intros [->|Hin]; [done|by apply Hfail].
Qed.

(** [setup_files] when the install directory is missing and its [os.mkdir]
    fails. *)
Lemma setup_files_mkdir_fails h s msg :
  fs s !! install_dir h = None ->
  os_error h (SysMakedirs (install_dir h)) = Some msg ->
  exists f msg',
    setup_files h s
    = (with_fs f s, Raise (OSError (SysMakedirs (install_dir h)) msg'))
    /\ f !! install_dir h = None
    /\ (forall p,
          is_Some (fs s !! p) \/ ~ In p (ancestors (install_dir h)) ->
          f !! p = fs s !! p)
    /\ ((forall q, In q (ancestors (install_dir h)) -> is_dir (fs s) q = true) ->
        f = fs s /\ msg' = msg).
Proof.
  intros Habsent Herr.
  rewrite setup_files_steps. fold (install_dir h).
  rewrite (exists_None _ _ Habsent). cbn [negb].
  unfold bind at 1, os_makedirs. rewrite (exists_None _ _ Habsent).
  destruct (existsb _ _) eqn:Hfile.
  - exists (fs s), "Not a directory". rewrite with_fs_same.
    split; [done|]. split; [done|]. split; [done|].
    intros Hdirs. apply existsb_exists in Hfile as (q & Hq & Hfile).
    specialize (Hdirs q Hq). unfold is_file, is_dir in *.
    by destruct (fs s !! q) as [[? ?|?]|].
  - set (mode := N.ldiff (octal 7 7 7) (umask h)).
    destruct (make_missing_stuck h mode (ancestors (install_dir h)
                                           ++ [install_dir h])
                (fs s) _ msg Habsent Herr) as [Hkeep Hfail].
    destruct Hfail as [msg' Hmsg]; [rewrite in_app_iff; right; by left|].
    pose proof (fun p => make_missing_lookup h p mode
                  (ancestors (install_dir h) ++ [install_dir h]) (fs s))
      as Hother.
    pose proof (make_missing_skip h mode (ancestors (install_dir h))
                  [install_dir h] (fs s)) as Hskip.
    destruct (make_missing h mode _ (fs s)) as [f r]. cbn [fst snd] in *.
    subst r. exists f, msg'. split; [done|]. split; [done|]. split.
    + intros p Hp. destruct (decide (p = install_dir h)) as [->|Hne].
      { by rewrite Hkeep, Habsent. }
      apply Hother. destruct Hp as [Hp|Hp]; [by left|right].
      rewrite in_app_iff. intros [Hin|[Heq|[]]]; [by apply Hp|by apply Hne].
    + intros Hdirs.
      assert (forall q, In q (ancestors (install_dir h)) -> is_Some (fs s !! q))
        as Hall.
      { intros q Hq. specialize (Hdirs q Hq). unfold is_dir in Hdirs.
        destruct (fs s !! q); [eauto|done]. }
      specialize (Hskip Hall). cbn [make_missing] in Hskip.
      rewrite Habsent, Herr in Hskip. by simplify_eq.
Qed.

(** X6: when the install directory is missing and its [os.mkdir] fails,
    the run stops before any asset is copied and before the profile is
    looked at: the status is 1 and the last line printed is the failure of
    [os.makedirs].  The install directory is still missing, and no path has
    changed other than ancestors of it that were missing: those made before
    the failure stay.  When every ancestor is a directory already, the
    failure printed is that of the install directory and the file system
    is as it was. *)
Theorem X6_install_dir_cannot_be_created h s msg :
  first_failure h (planned_commands h) = None ->
  fs s !! install_dir h = None ->
  os_error h (SysMakedirs (install_dir h)) = Some msg ->
  exit_code h s = 1%Z
  /\ (exists msg',
        last (out (fst (main h s)))
        = Some (failed h (OSError (SysMakedirs (install_dir h)) msg')))
  /\ fs (fst (main h s)) !! install_dir h = None
  /\ (forall p,
        is_Some (fs s !! p) \/ ~ In p (ancestors (install_dir h)) ->
        fs (fst (main h s)) !! p = fs s !! p)
  /\ ((forall q, In q (ancestors (install_dir h)) -> is_dir (fs s) q = true) ->
      main h s
      = (emit (failed h (OSError (SysMakedirs (install_dir h)) msg))
           (fst (install_dependencies h (emit banner s))),
         Raise (SystemExit 1))
      /\ fs (fst (main h s)) = fs s).
Proof.
  intros Hcmd Hdir Herr.
  pose proof (install_dependencies_result h (emit banner s)) as Hres.
  rewrite Hcmd in Hres.
  pose proof (install_dependencies_fs h (emit banner s)) as Hfs.
  destruct (install_dependencies h (emit banner s)) as [s1 r] eqn:Hinst.
  cbn [fst snd emit fs] in *. subst r.
  destruct (setup_files_mkdir_fails h s1 msg) as (f & msg' & Hset & Hf).
  { by rewrite Hfs. }
  { done. }
  rewrite Hfs in Hf. destruct Hf as (Habsent & Hother & Hdirs).
  assert (stages h (emit banner s)
          = (with_fs f s1,
             Raise (OSError (SysMakedirs (install_dir h)) msg'))) as Hst.
  { unfold stages, bind. by rewrite Hinst. }
  rewrite (main_fails _ _ _ _ Hst eq_refl). cbn [fst emit fs out].
  rewrite fs_with_fs.
  split; [by apply (exit_code_fails _ _ _ _ Hst)|].
  split; [exists msg'; by rewrite last_snoc|].
  split; [done|]. split; [done|].
  intros Hall. destruct (Hdirs Hall) as [-> ->].
  by rewrite <- Hfs, with_fs_same.
Qed.

Lemma X6_install_dir_cannot_be_created_witness :
  let h := Faulty.read_only_home in
  let s := Faulty.rooted in
  exit_code h s = 1%Z
  /\ (exists msg',
        last (out (fst (main h s)))
        = Some (failed h (OSError (SysMakedirs (install_dir h)) msg')))
  /\ fs (fst (main h s)) !! install_dir h = None
  /\ (forall p,
        is_Some (fs s !! p) \/ ~ In p (ancestors (install_dir h)) ->
        fs (fst (main h s)) !! p = fs s !! p)
  /\ ((forall q, In q (ancestors (install_dir h)) -> is_dir (fs s) q = true) ->
      main h s
      = (emit (failed h (OSError (SysMakedirs (install_dir h))
                           "[Errno 13] Permission denied"))
           (fst (install_dependencies h (emit banner s))),
         Raise (SystemExit 1))
      /\ fs (fst (main h s)) = fs s).
Proof.
  apply (X6_install_dir_cannot_be_created Faulty.read_only_home Faulty.rooted);
    reflexivity.
Defined.

(** On a disk without [/home], the directories made before the failure
    stay: the run has failed and [/home] is there. *)
Example makedirs_leaves_ancestors :
  let s := fst (main Faulty.locked_home Examples.blank) in
  exit_code Faulty.locked_home Examples.blank = 1%Z
  /\ fs s !! "/home" = Some (Dir (octal 7 5 5))
  /\ fs s !! "/home/ada" = Some (Dir (octal 7 5 5))
  /\ fs s !! "/home/ada/.secret-manager" = None.
Proof. vm_compute. by repeat split. Qed.

(** ** The profile and the install directory do not meet *)

(** An ancestor is followed, in the path, by a separator. *)
Lemma ancestors_from_split cur p q :
  In q (ancestors_from cur p) -> exists rest, cur +:+ p = q +:+ "/" +:+ rest.
Proof.
  revert cur. induction p as [|c p IH]; intros cur; cbn [ancestors_from]; [done|].
  rewrite in_app_iff. intros [Hhere|Hlater].
  - destruct (Ascii.eqb c "/") eqn:Hc; [|done].
    apply Ascii.eqb_eq in Hc as ->.
    destruct (negb (cur =? "")%string); [|done].
    destruct Hhere as [<-|[]]. by exists p.
  - destruct (IH _ Hlater) as [rest Hrest]. exists rest.
    by rewrite <- Hrest, append_assoc.
Qed.

(** Joining a relative name puts it after a prefix that depends on the
    directory alone. *)
Lemma os_path_join_relative a b :
  String.prefix "/" b = false ->
  os_path_join a b
  = (if (a =? "")%string || ends_with_sep a then a else a +:+ "/") +:+ b.
Proof.
  intros Hb. unfold os_path_join. rewrite Hb.
  destruct ((a =? "")%string || ends_with_sep a); [done|].
  by rewrite append_assoc.
Qed.

Lemma profile_not_created h rc :
  select_rc_file h = Some rc -> ~ In rc (created_dirs h).
Proof.
  intros Hrc. unfold created_dirs. rewrite in_app_iff.
  intros [Hanc|[Heq|[]]].
  - apply ancestors_from_split in Hanc as [rest Hrest].
    rewrite append_empty_l in Hrest. unfold install_dir in Hrest.
    rewrite os_path_join_relative in Hrest by done.
    unfold select_rc_file in Hrc.
    repeat match type of Hrc with
           | (if ?b then _ else _) = _ => destruct b
           | Some (if ?b then _ else _) = _ => destruct b
           end; simplify_eq;
      rewrite os_path_join_relative, append_assoc in Hrest by done;
      apply String.app_inj in Hrest; discriminate Hrest.
  - destruct (select_rc_file_last h _ Hrc) as [Hl|Hl];
      rewrite <- Heq, install_dir_last in Hl; by simplify_eq.
Qed.

Lemma profile_not_asset h rc name :
  select_rc_file h = Some rc -> In name files_to_copy ->
  ~ In rc (asset_paths h name).
Proof.
  intros Hrc Hin.
  destruct (select_rc_file_last h _ Hrc) as [Hl|Hl];
    apply asset_paths_not; rewrite ?Hl; by try intros [=].
Qed.

(** X7: [setup_files] never touches the shell profile, be it there or not;
    so a run that ends with status 1 leaves at the profile's path exactly
    what it found. *)
Theorem X7_failed_run_keeps_profile h s rc :
  select_rc_file h = Some rc ->
  fs (fst (setup_files h s)) !! rc = fs s !! rc
  /\ (exit_code h s = 1%Z -> fs (fst (main h s)) !! rc = fs s !! rc).
Proof.
  intros Hrc. split.
  - apply (setup_files_frame h rc (fs s !! rc)); [| |done].
    + intros name Hin. by apply profile_not_asset.
    + right. by apply profile_not_created.
  - intros Hone.
    destruct (stages h (emit banner s)) as [s1 [target_dir|e]] eqn:Hst.
    { rewrite (exit_code_completes _ _ _ _ Hst) in Hone. discriminate Hone. }
    rewrite (main_fails _ _ _ _ Hst (raises_stages _ _ _ _ Hst)).
    cbn [fst emit fs].
    apply (stages_frame h rc (fs s !! rc)) with (s := emit banner s)
                                                (r := Raise e); [| |done..].
    + intros name Hin. by apply profile_not_asset.
    + right. by apply profile_not_created.
Qed.

Lemma X7_failed_run_keeps_profile_witness :
  let h := Faulty.read_only_home in
  let s := Examples.fresh in
  fs (fst (setup_files h s)) !! "/home/ada/.bashrc" = fs s !! "/home/ada/.bashrc"
  /\ (exit_code h s = 1%Z ->
      fs (fst (main h s)) !! "/home/ada/.bashrc" = fs s !! "/home/ada/.bashrc").
Proof.
  apply (X7_failed_run_keeps_profile Faulty.read_only_home Examples.fresh).
  reflexivity.
Defined.

(** ** The bundled assets *)

(** The turn of an asset leaves its own source file as it is: a copy onto
    the source itself is refused, and [os.chmod] is given the destination. *)
Lemma copy_asset_keeps_source h assets_dir target_dir name data mode :
  preserves (fun f => f !! os_path_join assets_dir name = Some (File data mode))
    (copy_asset h assets_dir target_dir name).
Proof.
  intros s Hsrc. unfold copy_asset, bind, os_path_exists.
  rewrite (exists_Some _ _ _ Hsrc).
  set (src := os_path_join assets_dir name) in *.
  set (dst := os_path_join target_dir name) in *.
  assert (is_dir (fs s) dst = true -> dst <> src) as Hdst.
  { unfold is_dir. intros Hdir ->. by rewrite Hsrc in Hdir. }
  unfold shutil_copy2. rewrite Hsrc.
  destruct (is_dir (fs s) dst) eqn:Hdir.
  - destruct (src =? os_path_join dst (os_path_basename src))%string eqn:Heq;
      [done|]. apply String.eqb_neq in Heq.
    destruct (os_error h (SysCopy2 src dst));
      [cbv beta iota zeta; cbn [fst fs with_fs];
       by rewrite interrupted_copy_lookup|].
    destruct (is_dir (fs s) (os_path_join dst (os_path_basename src))); [done|].
    unfold os_chmod. cbn [fs with_fs].
    destruct (os_error h (SysChmod dst (octal 7 5 5))); cbn [fst fs with_fs];
      [by rewrite lookup_insert_ne|].
    destruct (_ !! dst); cbn [fst emit fs with_fs log];
      by rewrite !lookup_insert_ne by auto.
  - destruct (src =? dst)%string eqn:Heq; [done|]. apply String.eqb_neq in Heq.
    destruct (os_error h (SysCopy2 src dst));
      [cbv beta iota zeta; cbn [fst fs with_fs];
       by rewrite interrupted_copy_lookup|].
    rewrite Hdir. unfold os_chmod. cbn [fs with_fs].
    destruct (os_error h (SysChmod dst (octal 7 5 5))); cbn [fst fs with_fs];
      [by rewrite lookup_insert_ne|].
    destruct (_ !! dst); cbn [fst emit fs with_fs log];
      by rewrite !lookup_insert_ne by auto.
Qed.

(** X8: the installer never modifies the files it ships.  An asset source
    that is a file holds the same bytes, with the same permission bits,
    after a whole run, whether the run completes or not. *)
Theorem X8_sources_are_kept h s name data mode :
  In name files_to_copy ->
  fs s !! os_path_join (os_path_join (script_dir h) "assets") name
  = Some (File data mode) ->
  fs (fst (main h s)) !! os_path_join (os_path_join (script_dir h) "assets") name
  = Some (File data mode).
Proof.
  intros Hin Hsrc.
  set (assets_dir := os_path_join (script_dir h) "assets") in *.
  set (src := os_path_join assets_dir name) in *.
  assert (exists c, last_char name = Some c /\ c <> "/"%char
                    /\ c <> "c"%char /\ c <> "e"%char) as (c & Hc & Hsep & Hcc & Hce).
  { destruct (files_to_copy_last name Hin) as [Hl|Hl]; eexists; by rewrite Hl. }
  assert (name <> "") as Hne by (by intros ->).
  assert (last_char src = Some c) as Hlast.
  { unfold src. by rewrite os_path_join_last. }
  assert (preserves (fun f => f !! src = Some (File data mode)) (stages h))
    as Hstages.
  { unfold stages. apply preserves_bind; [apply preserves_install_dependencies|].
    intros _. unfold setup_files.
    apply preserves_bind; [apply preserves_exists|]. intros present.
    apply preserves_bind; [apply ensure_directory_kept; by left|].
    intros _. apply preserves_bind; [|intros _; apply preserves_ret].
    apply preserves_for_each. intros name' Hin'.
    destruct (decide (name' = name)) as [->|Hother].
    - apply copy_asset_keeps_source.
    - assert (exists c', last_char name' = Some c' /\ c' <> "/"%char /\ c' <> c)
        as (c' & Hc' & Hsep' & Hcc').
      { destruct Hin as [<-|[<-|[]]], Hin' as [<-|[<-|[]]]; try done;
          cbn in Hc; simplify_eq; eexists; by split. }
      apply (copy_asset_kept h src _ _ _ _ _ Hc' Hsep').
      rewrite Hlast. congruence. }
  assert (select_rc_file h <> Some src) as Hrc.
  { intros Hrc. destruct (select_rc_file_last h _ Hrc) as [Hl|Hl]; congruence. }
  destruct (stages h (emit banner s)) as [s1 [target_dir|e]] eqn:Hst.
  - rewrite (main_completes _ _ _ _ Hst). cbn [fst emit fs].
    destruct (configure_shell_frame h target_dir s1) as (lines & f & -> & Hf).
    cbn [fst]. rewrite fs_emits, fs_with_fs, (Hf src Hrc).
    specialize (Hstages (emit banner s) Hsrc). by rewrite Hst in Hstages.
  - rewrite (main_fails _ _ _ _ Hst (raises_stages _ _ _ _ Hst)).
    cbn [fst emit fs].
    specialize (Hstages (emit banner s) Hsrc). by rewrite Hst in Hstages.
Qed.

Lemma X8_sources_are_kept_witness :
  fs (fst (main Examples.debian Examples.fresh))
    !! os_path_join (os_path_join (script_dir Examples.debian) "assets")
         "manage-secrets.sh"
  = Some (File "#!/bin/sh" (octal 6 4 4)).
Proof.
  apply (X8_sources_are_kept Examples.debian Examples.fresh).
  - vm_compute. tauto.
  - vm_compute. reflexivity.
Defined.

(** ** The exported path *)





(** ** A profile that cannot be read or written *)

Ltac run_configure_shell Hrc :=
  unfold configure_shell; rewrite Hrc, (py_not_selected _ _ Hrc);
  cbn [default from_option id];
  unfold try_except, bind, os_path_exists, read_text, append_text, ret;
  trace_nf.

(** X10: a profile that is there but cannot be read, or that is a
    directory, is never written to: [configure_shell] prints the failure
    with its cause in red, raises nothing, and the file system is as it
    was.  The append is not tried, marker or no marker. *)
Theorem X10_unreadable_profile h install_path s rc n :
  select_rc_file h = Some rc ->
  fs s !! rc = Some n ->
  is_Some (os_error h (SysOpenRead rc)) \/ (exists mode, n = Dir mode) ->
  exists msg,
    configure_shell h install_path s
    = (emits [configuring rc;
              update_failed h rc (OSError (SysOpenRead rc) msg)] s, Ok tt).
Proof.
  intros Hrc Hfile Hbad.
  destruct (os_error h (SysOpenRead rc)) as [msg|] eqn:Hread.
  - exists msg. run_configure_shell Hrc.
    rewrite (exists_Some _ _ _ Hfile), Hread. cbn [is_Exception]. by trace_nf.
  - destruct Hbad as [[? [=]]|[mode ->]]. exists "Is a directory".
    run_configure_shell Hrc.
    rewrite (exists_Some _ _ _ Hfile), Hread. trace_nf. rewrite Hfile.
    cbn [is_Exception]. by trace_nf.
Qed.

Lemma X10_unreadable_profile_witness :
  exists msg,
    configure_shell Faulty.unreadable_profile "/home/ada/.secret-manager"
      Examples.fresh
    = (emits [configuring "/home/ada/.bashrc";
              update_failed Faulty.unreadable_profile "/home/ada/.bashrc"
                (OSError (SysOpenRead "/home/ada/.bashrc") msg)]
         Examples.fresh, Ok tt).
Proof.
  apply (X10_unreadable_profile Faulty.unreadable_profile
           "/home/ada/.secret-manager" Examples.fresh "/home/ada/.bashrc"
           (File "export EDITOR=vi" (octal 6 4 4))).
  - reflexivity.
  - reflexivity.
  - left. vm_compute. eauto.
Defined.

(** X11: when the profile is to be extended (it is absent, or readable and
    without the marker) but cannot be opened for appending,
    [configure_shell] prints the failure with its cause in red and returns;
    nothing is written and no success line is printed. *)
Theorem X11_unwritable_profile h install_path s rc msg :
  select_rc_file h = Some rc ->
  fs s !! rc = None
  \/ (exists data mode,
        fs s !! rc = Some (File data mode)
        /\ os_error h (SysOpenRead rc) = None
        /\ contains MARKER data = false) ->
  os_error h (SysOpenAppend rc) = Some msg ->
  configure_shell h install_path s
  = (emits [configuring rc;
            update_failed h rc (OSError (SysOpenAppend rc) msg)] s, Ok tt).
Proof.
  intros Hrc Hfile Happ.
  destruct Hfile as [Hfile|(data & mode & Hfile & Hread & Hmark)].
  - run_configure_shell Hrc. rewrite (exists_None _ _ Hfile), Happ.
    cbn [is_Exception]. by trace_nf.
  - run_configure_shell Hrc. rewrite (exists_Some _ _ _ Hfile), Hread. trace_nf.
    rewrite Hfile, Hmark, Happ. cbn [is_Exception]. by trace_nf.
Qed.

Lemma X11_unwritable_profile_witness :
  configure_shell Faulty.read_only_home "/home/ada/.secret-manager"
    Examples.fresh
  = (emits [configuring "/home/ada/.bashrc";
            update_failed Faulty.read_only_home "/home/ada/.bashrc"
              (OSError (SysOpenAppend "/home/ada/.bashrc")
                 "[Errno 13] Permission denied")]
       Examples.fresh, Ok tt).
Proof.
  apply (X11_unwritable_profile Faulty.read_only_home
           "/home/ada/.secret-manager" Examples.fresh "/home/ada/.bashrc").
  - reflexivity.
  - right. exists "export EDITOR=vi", (octal 6 4 4).
    split; [|split]; reflexivity.
  - reflexivity.
Defined.

(** ** Nothing is removed *)

Lemma same_kind_trans n1 n2 n3 :
  same_kind n1 n2 = true -> same_kind n2 n3 = true -> same_kind n1 n3 = true.
Proof. by destruct n1, n2, n3. Qed.

Lemma same_kind_chmod mode n : same_kind n (chmod_node mode n) = true.
Proof. by destruct n. Qed.

Section Kind.

Variables (h : Host) (p : string) (n : node).

(** There is still a node at [p], of the kind of [n]. *)
Let stays (f : gmap string node) : Prop :=
  exists n', f !! p = Some n' /\ same_kind n n' = true.

Lemma os_makedirs_stays path : preserves stays (os_makedirs h path).
Proof.
  intros s (n' & Hn & Hk). exists n'. split; [|done].
  apply (os_makedirs_kept h p (Some n') path); [left; eauto|done].
Qed.

(** A file written where there is no directory changes no kind. *)
Lemma write_file_stays (f : gmap string node) dst' data mode :
  stays f -> is_dir f dst' = false -> stays (<[dst' := File data mode]> f).
Proof.
  intros (n' & Hn & Hk) Hdir. unfold stays.
  destruct (decide (p = dst')) as [->|Hp].
  - rewrite lookup_insert_eq. eexists. split; [done|].
    unfold is_dir in Hdir. rewrite Hn in Hdir.
    destruct n' as [? ?|?]; [|done]. by destruct n.
  - rewrite lookup_insert_ne by done. by exists n'.
Qed.

Lemma shutil_copy2_stays src dst : preserves stays (shutil_copy2 h src dst).
Proof.
  intros s Hs. unfold shutil_copy2.
  set (dst' := if is_dir (fs s) dst then _ else dst).
  destruct (src =? dst')%string; [done|].
  destruct (os_error h _).
  { cbn [fst]. rewrite fs_with_fs. unfold interrupted_copy.
    repeat case_match; try done. by apply write_file_stays. }
  destruct (fs s !! src) as [[data mode|mode]|]; [|done..].
  destruct (is_dir (fs s) dst') eqn:Hdir; [done|].
  cbn [fst]. rewrite fs_with_fs. by apply write_file_stays.
Qed.

Lemma os_chmod_stays path mode : preserves stays (os_chmod h path mode).
Proof.
  intros s (n' & Hn & Hk). unfold os_chmod.
  destruct (os_error h _); [by exists n'|].
  destruct (fs s !! path) as [m|] eqn:Hm; [|by exists n'].
  cbn [fst]. rewrite fs_with_fs. unfold stays.
  destruct (decide (p = path)) as [->|Hp].
  - rewrite lookup_insert_eq. eexists. split; [done|].
    rewrite Hn in Hm. simplify_eq.
    apply (same_kind_trans _ _ _ Hk), same_kind_chmod.
  - rewrite lookup_insert_ne by done. by exists n'.
Qed.

Lemma setup_files_stays : preserves stays (setup_files h).
Proof.
  unfold setup_files.
  apply preserves_bind; [apply preserves_exists|]. intros present.
  apply preserves_bind.
  { destruct (negb present); [|apply preserves_ret].
    apply preserves_bind; [apply os_makedirs_stays|].
    intros _. apply preserves_log. }
  intros _. apply preserves_bind; [|intros _; apply preserves_ret].
  apply preserves_for_each. intros name _. unfold copy_asset.
  apply preserves_bind; [apply preserves_exists|]. intros [].
  - apply preserves_bind; [apply shutil_copy2_stays|]. intros _.
    apply preserves_bind; [apply os_chmod_stays|]. intros _.
    apply preserves_log.
  - apply preserves_log.
Qed.

Lemma configure_shell_stays install_path :
  preserves stays (configure_shell h install_path).
Proof.
  intros s (n' & Hn & Hk). unfold stays.
  destruct (decide (select_rc_file h = Some p)) as [Hrc|Hrc].
  - rewrite (configure_shell_rc h install_path s p Hrc), Hn.
    unfold rc_after. destruct n' as [data mode|mode]; [|by eexists].
    repeat case_match; eexists; (split; [done|]); by destruct n.
  - destruct (configure_shell_frame h install_path s) as (lines & f & -> & Hf).
    cbn [fst]. rewrite fs_emits, fs_with_fs, (Hf p Hrc). by exists n'.
Qed.

Lemma main_stays s : stays (fs s) -> stays (fs (fst (main h s))).
Proof.
  intros Hs.
  assert (preserves stays (stages h)) as Hpres.
  { unfold stages. apply preserves_bind.
    - apply preserves_install_dependencies.
    - intros _. apply setup_files_stays. }
  specialize (Hpres (emit banner s) Hs).
  destruct (stages h (emit banner s)) as [s1 [target_dir|e]] eqn:Hst.
  - rewrite (main_completes _ _ _ _ Hst). cbn [fst emit fs].
    by apply configure_shell_stays.
  - by rewrite (main_fails _ _ _ _ Hst (raises_stages _ _ _ _ Hst)).
Qed.

End Kind.

(** X12: a run removes nothing and never turns a file into a directory or
    a directory into a file.  Whatever path holds a node before [main]
    holds a node of the same kind after it, whether the run completes or
    fails, and the same is true of [setup_files] and of [configure_shell]
    alone. *)
Theorem X12_nothing_removed h s p n :
  fs s !! p = Some n ->
  (exists n', fs (fst (main h s)) !! p = Some n' /\ same_kind n n' = true)
  /\ (exists n', fs (fst (setup_files h s)) !! p = Some n'
                 /\ same_kind n n' = true)
  /\ (forall install_path,
        exists n', fs (fst (configure_shell h install_path s)) !! p = Some n'
                   /\ same_kind n n' = true).
Proof.
  intros Hp.
  assert (exists n', fs s !! p = Some n' /\ same_kind n n' = true) as Hs.
  { exists n. split; [done|]. by destruct n. }
  split; [|split].
  - by apply main_stays.
  - by apply setup_files_stays.
  - intros install_path. by apply configure_shell_stays.
Qed.

Lemma X12_nothing_removed_witness :
  (exists n', fs (fst (main Examples.debian Examples.fresh))
                !! "/home/ada/.bashrc" = Some n'
              /\ same_kind (File "export EDITOR=vi" (octal 6 4 4)) n' = true)
  /\ (exists n', fs (fst (setup_files Examples.debian Examples.fresh))
                   !! "/home/ada/.bashrc" = Some n'
                 /\ same_kind (File "export EDITOR=vi" (octal 6 4 4)) n' = true)
  /\ (forall install_path,
        exists n',
          fs (fst (configure_shell Examples.debian install_path Examples.fresh))
            !! "/home/ada/.bashrc" = Some n'
          /\ same_kind (File "export EDITOR=vi" (octal 6 4 4)) n' = true).
Proof.
  apply (X12_nothing_removed Examples.debian Examples.fresh "/home/ada/.bashrc").
  reflexivity.
Defined.

(** ** Running again *)

(** The turn of an asset, taken again in a state that agrees with the one
    it left on its source and its two possible destinations, returns and
    writes what is already there. *)
Lemma copy_asset_again h assets_dir target_dir name s s1 s' :
  let src := os_path_join assets_dir name in
  let dst := os_path_join target_dir name in
  copy_asset h assets_dir target_dir name s = (s1, Ok tt) ->
  (forall q, In q [src; dst; os_path_join dst (os_path_basename src)] ->
     fs s' !! q = fs s1 !! q) ->
  exists s'', copy_asset h assets_dir target_dir name s' = (s'', Ok tt)
              /\ fs s'' = fs s'.
Proof.
  cbn zeta. intros Hrun Hsame.
  pose proof (Hsame _ (or_introl eq_refl)) as Hsrc.
  pose proof (Hsame _ (or_intror (or_introl eq_refl))) as Hdst.
  pose proof (Hsame _ (or_intror (or_intror (or_introl eq_refl)))) as Hin.
  clear Hsame. revert Hrun Hsrc Hdst Hin. unfold copy_asset.
  set (src := os_path_join assets_dir name).
  set (dst := os_path_join target_dir name).
  set (dst_in := os_path_join dst (os_path_basename src)).
  unfold bind, os_path_exists.
  destruct (bool_decide (is_Some (fs s !! src))) eqn:Hex.
  2: { rewrite log_eq. intros [= <-] Hsrc _ _. cbn [emit fs] in Hsrc.
       apply bool_decide_eq_false in Hex.
       rewrite (exists_None (fs s') src).
       - rewrite log_eq. by eexists.
       - rewrite Hsrc. by apply eq_None_not_Some. }
  unfold shutil_copy2, os_chmod. fold dst_in.
  destruct (is_dir (fs s) dst) eqn:Hd.
  - destruct (src =? dst_in)%string eqn:Hsd; [done|].
    destruct (os_error h (SysCopy2 src dst)) eqn:Hc; [done|].
    destruct (fs s !! src) as [[data mode|?]|] eqn:Hs; [|done..].
    destruct (is_dir (fs s) dst_in) eqn:Hdi; [done|].
    destruct (os_error h (SysChmod dst (octal 7 5 5))) eqn:Hch; [done|].
    rewrite fs_with_fs.
    assert (dst_in <> dst) as Hne by (intros Heq; rewrite Heq in Hdi; congruence).
    rewrite lookup_insert_ne by done.
    unfold is_dir in Hd. destruct (fs s !! dst) as [[? ?|md]|] eqn:Hl; try done.
    rewrite log_eq. intros [= <-]. cbn [emit fs with_fs chmod_node].
    assert (dst <> src) as Hne' by (intros Heq; rewrite Heq in Hl; congruence).
    apply String.eqb_neq in Hsd.
    rewrite !lookup_insert_ne, Hs by done.
    rewrite lookup_insert_eq.
    rewrite lookup_insert_ne, lookup_insert_eq by done.
    intros Hsrc Hdst Hin.
    rewrite (exists_Some _ _ _ Hsrc). unfold is_dir. rewrite Hdst, Hsrc, Hin.
    rewrite (proj2 (String.eqb_neq _ _) Hsd).
    rewrite fs_with_fs, lookup_insert_ne, Hdst by done. rewrite log_eq.
    eexists. split; [done|]. cbn [emit fs with_fs chmod_node].
    rewrite (insert_id (fs s') dst_in) by done. by rewrite insert_id.
  - destruct (src =? dst)%string eqn:Hsd; [done|].
    destruct (os_error h (SysCopy2 src dst)) eqn:Hc; [done|].
    destruct (fs s !! src) as [[data mode|?]|] eqn:Hs; [|done..].
    rewrite Hd.
    destruct (os_error h (SysChmod dst (octal 7 5 5))) eqn:Hch; [done|].
    rewrite fs_with_fs, lookup_insert_eq, log_eq.
    intros [= <-]. cbn [emit fs with_fs chmod_node].
    apply String.eqb_neq in Hsd.
    rewrite !lookup_insert_ne, Hs by done.
    rewrite lookup_insert_eq.
    intros Hsrc Hdst _.
    rewrite (exists_Some _ _ _ Hsrc). unfold is_dir. rewrite Hdst, Hsrc.
    rewrite (proj2 (String.eqb_neq _ _) Hsd), Hdst.
    rewrite fs_with_fs, lookup_insert_eq, log_eq.
    eexists. split; [done|]. cbn [emit fs with_fs chmod_node].
    rewrite insert_insert_eq. by rewrite insert_id.
Qed.

(** When no [os.mkdir] fails, what was missing on the list is a directory
    of the given mode. *)
Lemma make_missing_created h mode qs (f : gmap string node) q :
  snd (make_missing h mode qs f) = None ->
  (f !! q = None /\ In q qs) \/ f !! q = Some (Dir mode) ->
  fst (make_missing h mode qs f) !! q = Some (Dir mode).
Proof.
  revert f. induction qs as [|q' qs IH]; intros f Hok Hq; cbn [make_missing] in *.
  - by destruct Hq as [[_ []]|Hq].
  - destruct (f !! q') eqn:Hq'.
    + apply IH; [done|].
      destruct Hq as [[Hq [->|Hin]]|Hq]; [congruence|by left|by right].
    + destruct (os_error h (SysMakedirs q')); [done|].
      apply IH; [done|].
      destruct (decide (q' = q)) as [->|Hne].
      * right. by rewrite lookup_insert_eq.
      * rewrite lookup_insert_ne by done.
        destruct Hq as [[Hq [Heq|Hin]]|Hq]; [done|by left|by right].
Qed.

(** The directory step of [setup_files], when it returns: the install
    directory is there, newly made with the default mode if it was not. *)
Lemma ensure_directory_creates h s s1 :
  (if negb (bool_decide (is_Some (fs s !! install_dir h)))
   then os_makedirs h (install_dir h) ;;
        log ("Created directory: " +:+ install_dir h) GREEN
   else ret tt)%script s = (s1, Ok tt) ->
  match fs s !! install_dir h with
  | Some n => s1 = s
  | None =>
      fs s1 !! install_dir h = Some (Dir (N.ldiff (octal 7 7 7) (umask h)))
      /\ out s1
         = out s ++ [Print (GREEN +:+ ("Created directory: " +:+ install_dir h)
                            +:+ RESET)]
  end.
Proof.
  destruct (fs s !! install_dir h) as [n|] eqn:Hdir.
  - rewrite bool_decide_eq_true_2 by eauto. cbn [negb]. by intros [= <-].
  - rewrite bool_decide_eq_false_2 by (by intros [? ?]). cbn [negb].
    unfold bind, os_makedirs. rewrite (exists_None _ _ Hdir).
    destruct (existsb _ _); [done|].
    destruct (make_missing _ _ _ _) as [f [msg|]] eqn:Hmk; [done|].
    rewrite log_eq. intros [= <-]. cbn [emit fs out with_fs]. split; [|done].
    pose proof (make_missing_created h (N.ldiff (octal 7 7 7) (umask h))
                  (ancestors (install_dir h) ++ [install_dir h]) (fs s)
                  (install_dir h)) as Hmade.
    rewrite Hmk in Hmade. apply Hmade; [done|]. left. split; [done|].
    rewrite in_app_iff. right. by left.
Qed.

(** A state that agrees with the one [setup_files] returned in, on the
    install directory and on each asset's source and destinations, makes
    [setup_files] return again, with the file system as it was. *)
Lemma setup_files_again h s s1 target_dir s' :
  setup_files h s = (s1, Ok target_dir) ->
  fs s' !! install_dir h = fs s1 !! install_dir h ->
  (forall name q,
     In name files_to_copy ->
     In q (os_path_join (os_path_join (script_dir h) "assets") name
           :: asset_paths h name) ->
     fs s' !! q = fs s1 !! q) ->
  exists s'', setup_files h s' = (s'', Ok target_dir) /\ fs s'' = fs s'.
Proof.
  intros Hrun Hdir Hpaths.
  apply setup_files_Ok_inv in Hrun as (-> & sa & sb & Hmk & Hfirst & Hsecond).
  fold (install_dir h) in *.
  set (assets_dir := os_path_join (script_dir h) "assets") in *.
  assert (is_Some (fs s' !! install_dir h)) as Hthere.
  { rewrite Hdir.
    assert (is_Some (fs sa !! install_dir h)) as Ha.
    { apply ensure_directory_creates in Hmk.
      destruct (fs s !! install_dir h) as [n|] eqn:Hn.
      - subst sa. rewrite Hn. eauto.
      - destruct Hmk as [-> _]. eauto. }
    pose proof (copy_asset_grows h (install_dir h) assets_dir (install_dir h)
                  "manage-secrets.sh" sa Ha) as Hb.
    rewrite Hfirst in Hb.
    pose proof (copy_asset_grows h (install_dir h) assets_dir (install_dir h)
                  "get-secrets.js" sb Hb) as Hc.
    by rewrite Hsecond in Hc. }
  assert (forall q, In q (os_path_join assets_dir "manage-secrets.sh"
                          :: asset_paths h "manage-secrets.sh") ->
                    fs s1 !! q = fs sb !! q) as Hkept.
  { intros q Hq.
    assert (last_char q = Some "h"%char) as Hl.
    { destruct Hq as [<-|Hq]; [by rewrite os_path_join_last|].
      by apply (asset_paths_last h "manage-secrets.sh"). }
    pose proof (copy_asset_kept h q (fs sb !! q) assets_dir (install_dir h)
                  "get-secrets.js" "s" eq_refl ltac:(done)) as Hk.
    rewrite Hl in Hk. specialize (Hk ltac:(done) sb eq_refl).
    by rewrite Hsecond in Hk. }
  destruct (copy_asset_again h assets_dir (install_dir h) "manage-secrets.sh"
              sa sb s' Hfirst) as (s'a & Hfirst' & Hfs).
  { intros q Hq. rewrite <- Hkept by done.
    apply (Hpaths "manage-secrets.sh"); [by left|done]. }
  destruct (copy_asset_again h assets_dir (install_dir h) "get-secrets.js"
              sb s1 s'a Hsecond) as (s'b & Hsecond' & Hfs').
  { intros q Hq. rewrite Hfs.
    apply (Hpaths "get-secrets.js"); [right; by left|done]. }
  exists s'b. split; [|congruence].
  rewrite setup_files_steps. fold (install_dir h). fold assets_dir.
  rewrite (bool_decide_eq_true_2 _ Hthere). cbn [negb]. unfold ret at 1.
  by rewrite Hfirst', Hsecond'.
Qed.

(** X13: when the install directory is not there and [setup_files]
    returns, it returns the path of that directory, the directory has been
    made with mode 0777 less the umask, and the first line printed says so.
    The copies that follow do not touch it. *)
Theorem X13_install_dir_is_made h s s1 target_dir :
  fs s !! install_dir h = None ->
  setup_files h s = (s1, Ok target_dir) ->
  target_dir = install_dir h
  /\ fs s1 !! install_dir h = Some (Dir (N.ldiff (octal 7 7 7) (umask h)))
  /\ exists evs,
       out s1
       = out s ++ Print (GREEN +:+ ("Created directory: " +:+ install_dir h)
                         +:+ RESET) :: evs.
Proof.
  intros Habsent Hrun.
  apply setup_files_Ok_inv in Hrun as (-> & sa & sb & Hmk & Hfirst & Hsecond).
  fold (install_dir h) in *. split; [done|].
  set (assets_dir := os_path_join (script_dir h) "assets") in *.
  apply ensure_directory_creates in Hmk. rewrite Habsent in Hmk.
  destruct Hmk as [Hdir Hout]. split.
  - pose proof (install_dir_last h) as Hl.
    pose proof (copy_asset_kept h (install_dir h) (fs sa !! install_dir h)
                  assets_dir (install_dir h) "manage-secrets.sh" "h" eq_refl
                  ltac:(done)) as Hk.
    rewrite Hl in Hk. specialize (Hk ltac:(done) sa eq_refl).
    rewrite Hfirst in Hk. cbn [fst] in Hk.
    pose proof (copy_asset_kept h (install_dir h) (fs sb !! install_dir h)
                  assets_dir (install_dir h) "get-secrets.js" "s" eq_refl
                  ltac:(done)) as Hk'.
    rewrite Hl in Hk'. specialize (Hk' ltac:(done) sb eq_refl).
    rewrite Hsecond in Hk'. cbn [fst] in Hk'. congruence.
  - destruct (copy_asset_outcome h assets_dir (install_dir h)
                "manage-secrets.sh" sa) as [[evs Hevs] _].
    destruct (copy_asset_outcome h assets_dir (install_dir h)
                "get-secrets.js" sb) as [[evs' Hevs'] _].
    rewrite Hfirst in Hevs. rewrite Hsecond in Hevs'. cbn [fst] in Hevs, Hevs'.
    exists (evs ++ evs'). rewrite Hevs', Hevs, Hout.
    by rewrite <- !app_assoc.
Qed.

Lemma X13_install_dir_is_made_witness :
  "/home/ada/.secret-manager" = install_dir Examples.debian
  /\ fs (fst (setup_files Examples.debian Examples.fresh))
       !! install_dir Examples.debian
     = Some (Dir (N.ldiff (octal 7 7 7) (umask Examples.debian)))
  /\ exists evs,
       out (fst (setup_files Examples.debian Examples.fresh))
       = out Examples.fresh
         ++ Print (GREEN +:+ ("Created directory: "
                              +:+ install_dir Examples.debian) +:+ RESET)
            :: evs.
Proof.
  apply (X13_install_dir_is_made Examples.debian Examples.fresh
           (fst (setup_files Examples.debian Examples.fresh))
           "/home/ada/.secret-manager").
  - vm_compute. reflexivity.
  - vm_compute. reflexivity.
Defined.

(** X14: [setup_files] can be repeated.  Run again on the state in which
    it returned, it returns again, with the same directory, and leaves the
    file system exactly as the first call left it: the copies overwrite,
    they do not add. *)
Theorem X14_setup_files_idempotent h s s1 target_dir :
  setup_files h s = (s1, Ok target_dir) ->
  exists s2, setup_files h s1 = (s2, Ok target_dir) /\ fs s2 = fs s1.
Proof. intros Hrun. by apply (setup_files_again h s s1 target_dir s1). Qed.

Lemma X14_setup_files_idempotent_witness :
  exists s2,
    setup_files Examples.debian
      (fst (setup_files Examples.debian Examples.fresh))
    = (s2, Ok "/home/ada/.secret-manager")
    /\ fs s2 = fs (fst (setup_files Examples.debian Examples.fresh)).
Proof.
  apply (X14_setup_files_idempotent Examples.debian Examples.fresh).
  vm_compute. reflexivity.
Defined.

(** The file system after [configure_shell], at a path that cannot be a
    profile. *)
Lemma configure_shell_other h install_path s q :
  last_char q <> Some "c"%char -> last_char q <> Some "e"%char ->
  fs (fst (configure_shell h install_path s)) !! q = fs s !! q.
Proof.
  intros Hc He.
  destruct (configure_shell_frame h install_path s) as (lines & f & -> & Hf).
  cbn [fst]. rewrite fs_emits, fs_with_fs. apply Hf. intros Hrc.
  destruct (select_rc_file_last h q Hrc); congruence.
Qed.

(** [configure_shell] changes nothing in a file system it has been through. *)
Lemma configure_shell_again h install_path s s' :
  fs s' = fs (fst (configure_shell h install_path s)) ->
  fs (fst (configure_shell h install_path s')) = fs s'.
Proof.
  intros Hfs. destruct (select_rc_file h) as [rc|] eqn:Hrc.
  2: { by rewrite configure_shell_unclassified. }
  apply map_eq. intros p. destruct (decide (p = rc)) as [->|Hp].
  - rewrite (configure_shell_rc h install_path s' rc Hrc), Hfs.
    by rewrite (configure_shell_rc h install_path s rc Hrc), rc_after_idempotent.
  - destruct (configure_shell_frame h install_path s') as (lines & f & -> & Hf).
    cbn [fst]. rewrite fs_emits, fs_with_fs. apply Hf. congruence.
Qed.

(** X15: the installer can be run again.  After a run that ended with
    status 0, a second run on the resulting state ends with status 0 too
    and leaves the file system exactly as the first run left it: no second
    block in the profile, no change to the deployed assets. *)
Theorem X15_second_run_changes_nothing h s :
  exit_code h s = 0%Z ->
  let s1 := fst (main h s) in
  exit_code h s1 = 0%Z /\ fs (fst (main h s1)) = fs s1.
Proof.
  intros Hexit.
  destruct (stages h (emit banner s)) as [sa [target_dir|e]] eqn:Hst.
  2: { rewrite (exit_code_fails _ _ _ _ Hst) in Hexit. discriminate. }
  rewrite (main_completes _ _ _ _ Hst). cbn [fst].
  set (s1 := emit complete (fst (configure_shell h target_dir sa))).
  cbn zeta.
  assert (fs s1 = fs (fst (configure_shell h target_dir sa))) as Hs1 by done.
  unfold stages, bind in Hst.
  pose proof (install_dependencies_result h (emit banner s)) as Hres.
  destruct (install_dependencies h (emit banner s)) as [s0 [[]|e]] eqn:Hi;
    [|done].
  cbn [snd] in Hres.
  pose proof (install_dependencies_result h (emit banner s1)) as Hres'.
  rewrite <- Hres in Hres'.
  pose proof (install_dependencies_fs h (emit banner s1)) as Hfs0.
  destruct (install_dependencies h (emit banner s1)) as [s0' r'] eqn:Hi'.
  cbn [fst snd emit fs] in Hres', Hfs0. subst r'.
  destruct (setup_files_again h s0 sa target_dir s0' Hst) as (s2 & Hrun & Hfs2).
  { rewrite Hfs0, Hs1. apply configure_shell_other; rewrite install_dir_last;
      by intros [=]. }
  { intros name q Hname Hq. rewrite Hfs0, Hs1.
    assert (last_char q = last_char name /\ name <> "") as [Hl Hne].
    { destruct (files_to_copy_last name Hname) as [Hn|Hn];
        (split; [|by intros ->]);
        (destruct Hq as [<-|Hq];
         [ apply os_path_join_last; by intros ->
         | rewrite Hn; by apply (asset_paths_last h name) ]). }
    destruct (files_to_copy_last name Hname) as [Hn|Hn];
      apply configure_shell_other; rewrite Hl, Hn; by intros [=]. }
  assert (stages h (emit banner s1) = (s2, Ok target_dir)) as Hst'.
  { unfold stages, bind. by rewrite Hi'. }
  split; [by apply (exit_code_completes _ _ _ _ Hst')|].
  rewrite (main_completes _ _ _ _ Hst'). cbn [fst emit fs].
  rewrite (configure_shell_again h target_dir sa s2); [congruence|].
  by rewrite Hfs2, Hfs0.
Qed.

Lemma X15_second_run_changes_nothing_witness :
  let s1 := fst (main Examples.debian Examples.fresh) in
  exit_code Examples.debian s1 = 0%Z
  /\ fs (fst (main Examples.debian s1)) = fs s1.
Proof.
  apply (X15_second_run_changes_nothing Examples.debian Examples.fresh).
  vm_compute. reflexivity.
Defined.

(** ** A copy that fails *)




(** The disk that fills up after four bytes is left with those four bytes
    at the destination, under the bits of a new file. *)
Example full_disk_leaves_a_partial_copy :
  fs (fst (main Faulty.full_disk Faulty.prepared))
    !! "/home/ada/.secret-manager/manage-secrets.sh"
  = Some (File "#!/b" (octal 6 4 4))
  /\ exit_code Faulty.full_disk Faulty.prepared = 1%Z.
Proof. vm_compute. by split. Qed.

(** ** The last line *)

(** The completion line, byte for byte as the script holds it: after the
    exclamation mark and a space come the nine bytes C3 B0 C5 B8 C5 A1 E2
    82 AC. *)
Example complete_bytes :
  complete
  = Print (GREEN
           +:+ (nl +:+ "Installation Complete! "
                +:+ String "195" (String "176" (String "197" (String "184"
                   (String "197" (String "161" (String "226" (String "130"
                   (String "172" EmptyString)))))))))
           +:+ RESET).
Proof. reflexivity. Qed.

Lemma failed_not_complete h e : failed h e <> complete.
Proof.
  unfold failed, complete, RED, GREEN, esc. rewrite !append_cons.
  intros [=].
Qed.

(** X17: the last line printed tells how the run ended.  It is the
    completion line exactly when the status is 0, and the failure line,
    for an [Exception], exactly when the status is 1. *)
Theorem X17_last_line h s :
  (exit_code h s = 0%Z <-> last (out (fst (main h s))) = Some complete)
  /\ (exit_code h s = 1%Z <->
      exists e, is_Exception e = true
                /\ last (out (fst (main h s))) = Some (failed h e)).
Proof.
  destruct (stages h (emit banner s)) as [s1 [target_dir|e]] eqn:Hst.
  - rewrite (exit_code_completes _ _ _ _ Hst), (main_completes _ _ _ _ Hst).
    cbn [fst emit out]. rewrite last_snoc. split; [done|].
    split; [done|]. intros (e & _ & He). symmetry in He.
    apply (inj Some) in He. by apply failed_not_complete in He.
  - pose proof (raises_stages _ _ _ _ Hst) as He.
    rewrite (exit_code_fails _ _ _ _ Hst), (main_fails _ _ _ _ Hst He).
    cbn [fst emit out]. rewrite last_snoc. split.
    + split; [done|]. intros Hc. apply (inj Some) in Hc.
      by apply failed_not_complete in Hc.
    + split; [|done]. intros _. by exists e.
Qed.

(** ** Everything printed goes through log *)

Lemma only_logs_silent {A} (m : M A) :
  (forall s, out (fst (m s)) = out s) -> only_logs m.
Proof. intros Hm s. exists []. by rewrite app_nil_r. Qed.

Lemma only_logs_ret {A} (a : A) : only_logs (ret a).
Proof. by apply only_logs_silent. Qed.

Lemma only_logs_log msg color :
  In color [GREEN; YELLOW; RED] -> only_logs (log msg color).
Proof.
  intros Hc s. eexists [_]. split; [done|].
  apply Forall_singleton. by exists color, msg.
Qed.

Lemma only_logs_bind {A B} (m : M A) (k : A -> M B) :
  only_logs m -> (forall a, only_logs (k a)) -> only_logs (bind m k).
Proof.
  intros Hm Hk s. unfold bind. destruct (Hm s) as (evs & Hevs & Hall).
  destruct (m s) as [s1 [a|e]]; cbn [fst] in *; [|eauto].
  destruct (Hk a s1) as (evs' & Hevs' & Hall').
  exists (evs ++ evs'). split; [by rewrite Hevs', Hevs, app_assoc|].
  by apply Forall_app.
Qed.

Lemma only_logs_try_except {A} (body : M A) (handler : exn -> M A) :
  only_logs body -> (forall e, only_logs (handler e)) ->
  only_logs (try_except body handler).
Proof.
  intros Hm Hk s. unfold try_except. destruct (Hm s) as (evs & Hevs & Hall).
  destruct (body s) as [s1 [a|e]]; cbn [fst] in *; [eauto|].
  destruct (is_Exception e); [|eauto].
  destruct (Hk e s1) as (evs' & Hevs' & Hall').
  exists (evs ++ evs'). split; [by rewrite Hevs', Hevs, app_assoc|].
  by apply Forall_app.
Qed.

Lemma only_logs_for_each {A} (xs : list A) (body : A -> M unit) :
  (forall x, only_logs (body x)) -> only_logs (for_each xs body).
Proof.
  intros Hbody. induction xs as [|x xs IH]; cbn [for_each].
  - apply only_logs_ret.
  - by apply only_logs_bind.
Qed.

Lemma only_logs_subprocess_run h argv check :
  only_logs (subprocess_run h argv check).
Proof.
  intros s. exists [Spawn argv check]. split.
  - unfold subprocess_run. by repeat case_match.
  - by apply Forall_singleton.
Qed.

Ltac colour := cbn [In]; auto.

Ltac only_logs_step :=
  first
    [ apply only_logs_bind; [|intros ?]
    | apply only_logs_log; colour
    | apply only_logs_ret
    | apply only_logs_subprocess_run ].

Lemma only_logs_install_dependencies h : only_logs (install_dependencies h).
Proof.
  unfold install_dependencies.
  repeat first [ only_logs_step | case_match ].
Qed.

Lemma only_logs_setup_files h : only_logs (setup_files h).
Proof.
  unfold setup_files.
  apply only_logs_bind; [by apply only_logs_silent|]. intros present.
  apply only_logs_bind.
  { destruct (negb present); [|apply only_logs_ret].
    apply only_logs_bind; [|intros _; apply only_logs_log; colour].
    apply only_logs_silent. intros s. unfold os_makedirs.
    by repeat case_match. }
  intros _. apply only_logs_bind; [|intros _; apply only_logs_ret].
  apply only_logs_for_each. intros name. unfold copy_asset.
  apply only_logs_bind; [by apply only_logs_silent|]. intros [].
  - apply only_logs_bind; [|intros _; apply only_logs_bind; [|intros _]].
    + apply only_logs_silent. intros s. unfold shutil_copy2.
      by repeat case_match.
    + apply only_logs_silent. intros s. unfold os_chmod.
      by repeat case_match.
    + apply only_logs_log; colour.
  - apply only_logs_log; colour.
Qed.

Lemma only_logs_configure_shell h install_path :
  only_logs (configure_shell h install_path).
Proof.
  unfold configure_shell. destruct (py_not _); [apply only_logs_log; colour|].
  apply only_logs_bind; [apply only_logs_log; colour|]. intros _.
  apply only_logs_try_except; [|intros e; apply only_logs_log; colour].
  apply only_logs_bind; [by apply only_logs_silent|]. intros present.
  apply only_logs_bind.
  { destruct present; [|apply only_logs_ret].
    apply only_logs_bind.
    - apply only_logs_silent. intros s. unfold read_text. by repeat case_match.
    - intros content. destruct (contains _ _); repeat only_logs_step. }
  intros []; [apply only_logs_ret|].
  apply only_logs_bind; [|intros _; repeat only_logs_step].
  apply only_logs_silent. intros s. unfold append_text. by repeat case_match.
Qed.

(** X18: everything the installer prints goes through [log].  Whatever
    the host and the state, the events a run adds to the trace are the
    processes it starts and lines made of one of the three colour codes, a
    message, and the reset code. *)
Theorem X18_every_line_is_coloured h s :
  exists evs,
    out (fst (main h s)) = out s ++ evs
    /\ Forall logged evs
    /\ forall line, In (Print line) evs ->
         exists color msg,
           (color = GREEN \/ color = YELLOW \/ color = RED)
           /\ line = color +:+ msg +:+ RESET.
Proof.
  assert (only_logs (main h)) as Hmain.
  { unfold main. apply only_logs_bind; [apply only_logs_log; colour|].
    intros _. apply only_logs_try_except.
    - apply only_logs_bind; [apply only_logs_install_dependencies|]. intros _.
      apply only_logs_bind; [apply only_logs_setup_files|]. intros target_dir.
      apply only_logs_bind; [apply only_logs_configure_shell|]. intros _.
      apply only_logs_log; colour.
    - intros e. apply only_logs_bind; [apply only_logs_log; colour|].
      intros _. by apply only_logs_silent. }
  destruct (Hmain s) as (evs & Hevs & Hall).
  exists evs. split; [done|]. split; [done|].
  intros line Hin. rewrite Forall_forall in Hall.
  destruct (Hall _ (proj2 (list_elem_of_In _ _) Hin)) as (color & msg & Hc & ->).
  exists color, msg. split; [|done].
  destruct Hc as [<-|[<-|[<-|[]]]]; auto.
Qed.
